(** * Opportunity scanner of the OMNISCIENT ONE dashboard

    A shallow embedding of [AbsoluteBestScanner] (app.py): the three
    sub-scores, the stock analysis, the trade plan and the scan loop,
    followed by the properties of the scoring/scanning specification.

    Numbers.  The program computes on float64 values.  The scan and the
    analysis are modelled over exact rationals extended with the IEEE
    special values that a division by zero produces under numpy ([inf],
    [-inf], [nan]); there rounding error, overflow and signed zeros are
    not modelled and bar data is finite.  The thresholds of the volume
    score, the orderings of the trend score, the price levels of the
    trade plan and the live quote depend on how float64 rounds and on
    [nan] in the data: they are stated over IEEE 754 binary64 values, in
    the module [Binary64]. *)

From Stdlib Require Import List String ZArith QArith Qround Qabs Qminmax.
From Stdlib Require Import SpecFloat.
From Stdlib Require Import Lia Lqa Bool Sorted Permutation.
Import ListNotations.
Open Scope string_scope.
Open Scope list_scope.
Open Scope Q_scope.

(** ** Floating-point values *)

Module Float.

Inductive float : Type :=
| Fin (q : Q)
| PosInf
| NegInf
| NaN.

Definition Qltb (x y : Q) : bool := negb (Qle_bool y x).

(** The infinity (or nan) that a nonzero (or zero) finite numerator of
    sign [s] yields when it is divided by zero or scaled by infinity. *)
Definition sign_inf (s : Q) : float :=
  if Qltb 0 s then PosInf else if Qltb s 0 then NegInf else NaN.

Definition fneg (x : float) : float :=
  match x with
  | Fin q => Fin (- q)
  | PosInf => NegInf
  | NegInf => PosInf
  | NaN => NaN
  end.

Definition fadd (x y : float) : float :=
  match x, y with
  | NaN, _ | _, NaN => NaN
  | Fin a, Fin b => Fin (a + b)
  | PosInf, NegInf | NegInf, PosInf => NaN
  | PosInf, _ | _, PosInf => PosInf
  | NegInf, _ | _, NegInf => NegInf
  end.

Definition fsub (x y : float) : float := fadd x (fneg y).

Definition fmul (x y : float) : float :=
  match x, y with
  | NaN, _ | _, NaN => NaN
  | Fin a, Fin b => Fin (a * b)
  | Fin a, PosInf | PosInf, Fin a => sign_inf a
  | Fin a, NegInf | NegInf, Fin a => sign_inf (- a)
  | PosInf, PosInf | NegInf, NegInf => PosInf
  | PosInf, NegInf | NegInf, PosInf => NegInf
  end.

(** numpy true division: a zero divisor gives [inf]/[nan], no exception. *)
Definition fdiv (x y : float) : float :=
  match x, y with
  | NaN, _ | _, NaN => NaN
  | Fin a, Fin b => if Qeq_bool b 0 then sign_inf a else Fin (a / b)
  | Fin _, (PosInf | NegInf) => Fin 0
  | PosInf, Fin b => if Qltb b 0 then NegInf else PosInf
  | NegInf, Fin b => if Qltb b 0 then PosInf else NegInf
  | (PosInf | NegInf), (PosInf | NegInf) => NaN
  end.

Definition fabs (x : float) : float :=
  match x with
  | Fin q => Fin (Qabs q)
  | PosInf | NegInf => PosInf
  | NaN => NaN
  end.

(** Comparisons: every comparison with [nan] is false. *)
Definition flt (x y : float) : bool :=
  match x, y with
  | NaN, _ | _, NaN => false
  | Fin a, Fin b => Qltb a b
  | _, NegInf => false
  | NegInf, _ => true
  | PosInf, _ => false
  | Fin _, PosInf => true
  end.

Definition fgt (x y : float) : bool := flt y x.

Definition fle (x y : float) : bool :=
  match x, y with
  | NaN, _ | _, NaN => false
  | Fin a, Fin b => Qle_bool a b
  | NegInf, _ => true
  | _, PosInf => true
  | _, NegInf => false
  | PosInf, _ => false
  end.

Definition fge (x y : float) : bool := fle y x.

Definition feq (x y : float) : bool :=
  match x, y with
  | Fin a, Fin b => Qeq_bool a b
  | PosInf, PosInf | NegInf, NegInf => true
  | _, _ => false
  end.

(** Python's builtin [min(a, b)] and [max(a, b)]: the first argument is
    kept unless the second is strictly smaller (resp. larger). *)
Definition py_min (a b : float) : float := if flt b a then b else a.
Definition py_max (a b : float) : float := if fgt b a then b else a.

(** Round half to even, to the nearest integer. *)
Definition round_half_even (q : Q) : Z :=
  let f := Qfloor q in
  let r := q - inject_Z f in
  if Qltb r 0.5 then f
  else if Qltb 0.5 r then (f + 1)%Z
  else if Z.even f then f else (f + 1)%Z.

(** Python's [round(x, 2)]; [inf] and [nan] are returned unchanged. *)
Definition Qround2 (q : Q) : Q := inject_Z (round_half_even (q * 100)) / 100.

Definition round2 (x : float) : float :=
  match x with
  | Fin q => Fin (Qround2 q)
  | _ => x
  end.

(** Equality of values: rationals are compared as numbers. *)
Definition float_eq (x y : float) : Prop :=
  match x, y with
  | Fin a, Fin b => a == b
  | PosInf, PosInf | NegInf, NegInf | NaN, NaN => True
  | _, _ => False
  end.

End Float.
Import Float.

(** ** Exceptions *)

Inductive exn : Type :=
| KeyError (key : string)
| IndexError
| ValueError
| OtherError.

Inductive result (A : Type) : Type :=
| Ok (a : A)
| Raise (e : exn).
Arguments Ok {A} a.
Arguments Raise {A} e.

Definition bind {A B : Type} (c : result A) (k : A -> result B) : result B :=
  match c with
  | Ok a => k a
  | Raise e => Raise e
  end.

Notation "x <- c ;; k" := (bind c (fun x => k))
  (at level 61, c at next level, right associativity).

(** ** Bars and data frames *)

(** One row of the frame.  Only the two columns the scanner reads carry
    data here; [columns] records which column names the frame has. *)
Record Bar : Type := mkBar { Close : Q; Volume : Q }.

Record DataFrame : Type := mkFrame {
  columns : list string;
  rows : list Bar
}.

Definition len (data : DataFrame) : nat := List.length (rows data).

(** [data.empty]: some axis has length zero. *)
Definition empty (data : DataFrame) : bool :=
  match columns data, rows data with
  | [], _ | _, [] => true
  | _, _ => false
  end.

Definition has_column (data : DataFrame) (name : string) : bool :=
  existsb (String.eqb name) (columns data).

(** [data[name]] for the two columns that are read. *)
Definition getitem (data : DataFrame) (name : string) : result (list Q) :=
  if has_column data name then
    if String.eqb name "Close" then Ok (map Close (rows data))
    else if String.eqb name "Volume" then Ok (map Volume (rows data))
    else Raise OtherError
  else Raise (KeyError name).

(** [s.iloc[-k]] (and [a[-k]] on an array), for [k >= 1]. *)
Definition iloc_neg (s : list Q) (k : nat) : result float :=
  if (k <=? List.length s)%nat then Ok (Fin (nth (List.length s - k) s 0))
  else Raise IndexError.

(** [s.iloc[-k:]]: the last [k] entries, all of them when there are fewer. *)
Definition tail (k : nat) (s : list Q) : list Q := skipn (List.length s - k) s.

Definition Qsum (s : list Q) : Q := fold_right Qplus 0 s.

(** [s.mean()] / [np.mean(a)]; the mean of no value is [nan]. *)
Definition mean (s : list Q) : float :=
  fdiv (Fin (Qsum s)) (Fin (inject_Z (Z.of_nat (List.length s)))).

(** ** Sub-scores *)

Definition _calculate_momentum (data : DataFrame) : result float :=
  if (len data <? 10)%nat then Ok (Fin 50)
  else
    recent_change <-
      (if (5 <=? len data)%nat then
         close <- getitem data "Close" ;;
         last <- iloc_neg close 1 ;;
         prior <- iloc_neg close 5 ;;
         Ok (fmul (fdiv (fsub last prior) prior) (Fin 100))
       else Ok (Fin 0)) ;;
    let momentum := fadd (Fin 50) (fmul recent_change (Fin 2)) in
    Ok (py_max (Fin 0) (py_min (Fin 100) momentum)).

Definition _calculate_volume (data : DataFrame) : result float :=
  if (len data <? 10)%nat || negb (has_column data "Volume") then Ok (Fin 50)
  else
    volume <- getitem data "Volume" ;;
    let recent_volume := mean (tail 5 volume) in
    let avg_volume :=
      if (20 <=? len data)%nat then mean (tail 20 volume) else recent_volume in
    if feq avg_volume (Fin 0) then Ok (Fin 50)
    else
      let volume_ratio := fdiv recent_volume avg_volume in
      if fgt volume_ratio (Fin 2) then Ok (Fin 90)
      else if fgt volume_ratio (Fin 1.5) then Ok (Fin 75)
      else if fgt volume_ratio (Fin 1) then Ok (Fin 60)
      else Ok (Fin 40).

Definition _calculate_trend (data : DataFrame) : result float :=
  if (len data <? 20)%nat then Ok (Fin 50)
  else
    prices <- getitem data "Close" ;;
    let ma_short := mean (tail 10 prices) in
    let ma_long := mean (tail 20 prices) in
    last <- iloc_neg prices 1 ;;
    if fgt last ma_short && fgt ma_short ma_long then Ok (Fin 85)
    else if flt last ma_short && flt ma_short ma_long then Ok (Fin 15)
    else Ok (Fin 50).

(** ** Analyses and trade plans *)

Record TradePlan : Type := mkPlan {
  direction : string;
  entry : float;
  stop_loss : float;
  target : float;
  risk_reward : float;
  timeframe : string;
  position_size : string;
  confidence : string
}.

(** The analysis dictionary.  ['ticker'] and ['score'] are always set;
    the other keys are missing from the analysis of an empty frame, and
    ['trade_plan'] is set by the scan loop. *)
Record Analysis : Type := mkAnalysis {
  ticker : string;
  price : option float;
  price_change : option float;
  trend : option string;
  score : float;
  momentum_score : option float;
  volume_score : option float;
  trend_score : option float;
  trade_plan : option TradePlan
}.

(** [analysis[key]] *)
Definition lookup {A : Type} (field : option A) (key : string) : result A :=
  match field with
  | Some v => Ok v
  | None => Raise (KeyError key)
  end.

(** [analysis['trade_plan'] = plan] *)
Definition set_trade_plan (analysis : Analysis) (plan : TradePlan) : Analysis :=
  mkAnalysis (ticker analysis) (price analysis) (price_change analysis)
    (trend analysis) (score analysis) (momentum_score analysis)
    (volume_score analysis) (trend_score analysis) (Some plan).

Definition _analyze_stock (ticker : string) (data : DataFrame)
  : result Analysis :=
  if empty data then
    Ok (mkAnalysis ticker None None None (Fin 0) None None None None)
  else
    current_price <-
      (if has_column data "Close" then
         close <- getitem data "Close" ;; iloc_neg close 1
       else Ok (Fin 100)) ;;
    momentum_score <- _calculate_momentum data ;;
    volume_score <- _calculate_volume data ;;
    trend_score <- _calculate_trend data ;;
    let total_score :=
      fadd (fadd (fmul momentum_score (Fin 0.4)) (fmul volume_score (Fin 0.3)))
           (fmul trend_score (Fin 0.3)) in
    if (2 <=? len data)%nat then
      close <- getitem data "Close" ;;
      last <- iloc_neg close 1 ;;
      prev <- iloc_neg close 2 ;;
      let price_change := fmul (fdiv (fsub last prev) prev) (Fin 100) in
      let trend := if fgt price_change (Fin 0) then "BULLISH" else "BEARISH" in
      Ok (mkAnalysis ticker (Some current_price) (Some price_change)
            (Some trend) total_score (Some momentum_score)
            (Some volume_score) (Some trend_score) None)
    else
      Ok (mkAnalysis ticker (Some current_price) (Some (Fin 0))
            (Some "NEUTRAL") total_score (Some momentum_score)
            (Some volume_score) (Some trend_score) None).

Definition _generate_trade_plan (analysis : Analysis) : result TradePlan :=
  current_price <- lookup (price analysis) "price" ;;
  let score := score analysis in
  trend <- lookup (trend analysis) "trend" ;;
  let '(direction, entry, stop_loss, target) :=
    if String.eqb trend "BULLISH" then
      ("LONG", current_price,
       fmul current_price (Fin 0.93), fmul current_price (Fin 1.21))
    else
      ("SHORT", current_price,
       fmul current_price (Fin 1.07), fmul current_price (Fin 0.79)) in
  let risk := fabs (fsub entry stop_loss) in
  let reward := fabs (fsub target entry) in
  let risk_reward := if fgt risk (Fin 0) then fdiv reward risk else Fin 0 in
  let '(confidence, position) :=
    if fge score (Fin 85) then ("VERY HIGH", "10-15%")
    else if fge score (Fin 75) then ("HIGH", "7-10%")
    else ("MODERATE", "5-7%") in
  Ok (mkPlan direction (round2 entry) (round2 stop_loss) (round2 target)
        (round2 risk_reward) "3-10 days" position confidence).

(** ** The scan *)

(** The scanner object: its data engine, seen as the answer of
    [get_market_data] for each ticker during one scan (an exception, [None]
    or a frame), and its priority watchlist. *)
Record AbsoluteBestScanner : Type := mkScanner {
  get_market_data : string -> result (option DataFrame);
  priority_tickers : list string
}.

(** [__init__]: the scanner over the built-in priority watchlist. *)
Definition default_priority_tickers : list string :=
  ["NVDA"; "AAPL"; "MSFT"; "GOOGL"; "AMZN"; "META"; "TSLA";
   "AMD"; "AVGO"; "TSM"; "INTC"; "QCOM"; "COIN"; "PLTR";
   "SNOW"; "CRWD"; "NET"; "DDOG"; "SQ"; "SHOP"; "UBER"].

Definition __init__ (data_engine : string -> result (option DataFrame))
  : AbsoluteBestScanner :=
  mkScanner data_engine default_priority_tickers.

(** One iteration of the loop: the body of the [try], and [continue] on
    any exception, which leaves [results] as it was. *)
Definition scan_ticker (self : AbsoluteBestScanner)
    (results : list Analysis) (ticker : string) : list Analysis :=
  match
    (data <- get_market_data self ticker ;;
     match data with
     | Some data =>
         if negb (empty data) then
           analysis <- _analyze_stock ticker data ;;
           if fge (score analysis) (Fin 75) then
             plan <- _generate_trade_plan analysis ;;
             Ok (results ++ [set_trade_plan analysis plan])
           else Ok results
         else Ok results
     | None => Ok results
     end)
  with
  | Ok results' => results'
  | Raise _ => results
  end.

(** [results.sort(key=lambda x: x['score'], reverse=True)]: a stable sort,
    descending by score. *)
Fixpoint insert_desc (x : Analysis) (sorted : list Analysis) : list Analysis :=
  match sorted with
  | [] => [x]
  | y :: rest =>
      if flt (score x) (score y) then y :: insert_desc x rest
      else x :: sorted
  end.

Definition sort_by_score_desc (results : list Analysis) : list Analysis :=
  fold_right insert_desc [] results.

(** [results[:n]] for an integer [n], negative ones counting from the end. *)
Definition slice_to {A : Type} (l : list A) (n : Z) : list A :=
  if (0 <=? n)%Z then firstn (Z.to_nat n) l
  else firstn (List.length l - Z.to_nat (- n)) l.

(** The list [results] when the loop ends, in encounter order. *)
Definition collect (self : AbsoluteBestScanner) : list Analysis :=
  fold_left (scan_ticker self) (firstn 15 (priority_tickers self)) [].

Definition scan_best_opportunities (self : AbsoluteBestScanner)
    (max_results : Z) : result (list Analysis) :=
  let results := collect self in
  let results := sort_by_score_desc results in
  Ok (slice_to results max_results).

(** ** Sample data *)

Definition flat_bars (n : nat) (c v : Q) : list Bar := repeat (mkBar c v) n.

Definition bars_of (closes : list Q) : list Bar :=
  map (fun c => mkBar c 1000) closes.

Definition ohlcv : list string := ["Open"; "High"; "Low"; "Close"; "Volume"].

(** Twenty bars rising by [step] a day from 100, with a volume surge in
    the last five. *)
Definition rising_by (step : Z) : DataFrame :=
  mkFrame ohlcv
    (map (fun i => mkBar (inject_Z (100 + step * Z.of_nat i))
                         (if (i <? 15)%nat then 1000 else 3000))
         (seq 0 20)).

(** Steps of 10: momentum 82, volume 75, trend 85, combined 80.8. *)
Definition rising : DataFrame := rising_by 10.

(** Steps of 30: momentum about 93.6, combined about 85.4. *)
Definition surging : DataFrame := rising_by 30.

(** A watchlist of three whose second fetch throws. *)
Definition one_bad_ticker : AbsoluteBestScanner :=
  mkScanner
    (fun t => if String.eqb t "AAPL" then Raise OtherError
              else if String.eqb t "NVDA" then Ok (Some rising)
              else Ok (Some surging))
    ["NVDA"; "AAPL"; "MSFT"].

(** A scanner without any ticker to scan. *)
Definition no_tickers : AbsoluteBestScanner :=
  mkScanner (fun _ => Ok (Some rising)) [].

(** Five tickers that all qualify, two of them with the higher score. *)
Definition five_qualifying : AbsoluteBestScanner :=
  mkScanner
    (fun t => if String.eqb t "AAPL" || String.eqb t "AMZN"
              then Ok (Some surging) else Ok (Some rising))
    ["NVDA"; "AAPL"; "MSFT"; "AMZN"; "META"].

(** A sideways series whose close dipped to 50 six bars back (five bars
    before the latest one) and is 100 everywhere else. *)
Definition dip : DataFrame :=
  mkFrame ohlcv
    (bars_of [100; 100; 100; 100; 50; 100; 100; 100; 100; 100]).

(** ** The specification's formulas *)

Definition closes (data : DataFrame) : list Q := map Close (rows data).
Definition volumes (data : DataFrame) : list Q := map Volume (rows data).

Definition pct_change (new old : Q) : Q := (new - old) / old * 100.

Definition clamp_0_100 (x : Q) : Q := Qmax 0 (Qmin 100 x).

(** The momentum score in the words of the specification, the close
    "5 bars prior" being the one five positions before the latest. *)
Definition momentum_5_bars_prior (cs : list Q) : Q :=
  let n := List.length cs in
  if (n <? 10)%nat then 50
  else clamp_0_100 (50 + 2 * pct_change (nth (n - 1) cs 0) (nth (n - 6) cs 0)).

(** The simple average of a window, as a rational. *)
Definition average (s : list Q) : Q :=
  Qsum s / inject_Z (Z.of_nat (List.length s)).

(** The unrounded stop and target levels of the plan for a trend label. *)
Definition level_stop (t : string) (p : Q) : Q :=
  if String.eqb t "BULLISH" then p * 0.93 else p * 1.07.

Definition level_target (t : string) (p : Q) : Q :=
  if String.eqb t "BULLISH" then p * 1.21 else p * 0.79.

(** A full analysis with the given price, trend label and score. *)
Definition analysis_of (p : Q) (t : string) (s : Q) : Analysis :=
  mkAnalysis "NVDA" (Some (Fin p)) (Some (Fin 0)) (Some t) (Fin s)
    (Some (Fin 50)) (Some (Fin 50)) (Some (Fin 50)) None.

(** [a] ranks at or above [b]. *)
Definition ranks_above (a b : Analysis) : Prop :=
  fge (score a) (score b) = true.

(** The analyses of a list whose score is the value [k]. *)
Definition with_score (k : float) (l : list Analysis) : list Analysis :=
  filter (fun a => feq (score a) k) l.

(** The inclusion threshold of the scan. *)
Definition qualifies (a : Analysis) : Prop := fge (score a) (Fin 75) = true.

(** The fetch for a ticker gave a frame with data. *)
Definition fetched (self : AbsoluteBestScanner) (t : string) : bool :=
  match get_market_data self t with
  | Ok (Some data) => negb (empty data)
  | _ => false
  end.

(** The same scanner over another watchlist. *)
Definition with_tickers (self : AbsoluteBestScanner) (ts : list string)
  : AbsoluteBestScanner :=
  mkScanner (get_market_data self) ts.

(** ** Subscription plans (src/subscription.py) *)

Module Subscription.

(** A Python dictionary with string keys, in insertion order. *)
Definition dict (V : Type) : Type := list (string * V).

Fixpoint dict_get {V : Type} (d : dict V) (key : string) : option V :=
  match d with
  | [] => None
  | (k, v) :: rest => if String.eqb key k then Some v else dict_get rest key
  end.

(** The values of a plan's ["limits"]: integers and booleans. *)
Inductive value : Type :=
| VInt (n : Z)
| VBool (b : bool).

(** A value used as a number ([True] is 1, [False] is 0). *)
Definition number (v : value) : Q :=
  match v with
  | VInt n => inject_Z n
  | VBool b => if b then 1 else 0
  end.

Record Plan : Type := mkSubscription {
  name : string;
  price_monthly : Q;
  price_yearly : Q;
  stripe_price_id_monthly : string;
  stripe_price_id_yearly : string;
  features : list string;
  limits : dict value;
  trial_days : Z
}.

Definition mk_limits (max_portfolios max_alerts daily_scans api_calls
    refresh : Z) (real_time advanced ai whale automated api : bool)
  : dict value :=
  [("max_portfolios", VInt max_portfolios);
   ("max_alerts", VInt max_alerts);
   ("daily_scans", VInt daily_scans);
   ("api_calls_per_day", VInt api_calls);
   ("data_refresh_interval", VInt refresh);
   ("real_time_data", VBool real_time);
   ("advanced_indicators", VBool advanced);
   ("ai_predictions", VBool ai);
   ("whale_detection", VBool whale);
   ("automated_trading", VBool automated);
   ("api_access", VBool api)].

Definition free_plan : Plan :=
  mkSubscription "Free" 0 0 "" ""
    ["Basic Dashboard"; "Delayed Market Data (15-min)"; "5 Stock Watchlist";
     "Basic Technical Analysis"; "Email Support"]
    (mk_limits 1 5 3 100 15 false false false false false false) 0.

Definition basic_plan : Plan :=
  mkSubscription "Basic" 29.99 299.99
    "price_basic_monthly" "price_basic_yearly"
    ["Everything in Free"; "Real-time Market Data"; "Unlimited Watchlist";
     "AI Price Predictions"; "Basic Trade Signals"; "Email & SMS Alerts";
     "Priority Support"]
    (mk_limits 3 20 10 500 1 true true true false false false) 7.

Definition premium_plan : Plan :=
  mkSubscription "Premium" 99.99 999.99
    "price_premium_monthly" "price_premium_yearly"
    ["Everything in Basic"; "Absolute Best Scanner";
     "Advanced AI Predictions"; "Whale Detection"; "Portfolio Optimizer";
     "Market Narratives"; "Advanced Technical Indicators"; "API Access";
     "Discord Community"; "Weekly Strategy Reports"]
    (mk_limits 10 100 50 2000 1 true true true true false true) 14.

Definition ultimate_plan : Plan :=
  mkSubscription "Ultimate" 199.99 1999.99
    "price_ultimate_monthly" "price_ultimate_yearly"
    ["Everything in Premium"; "Automated Trading";
     "Institutional Grade Data"; "Custom Indicators";
     "Dedicated Account Manager"; "Weekly 1-on-1 Strategy Sessions";
     "White Label Solutions"; "Priority API Access"; "24/7 Phone Support";
     "Custom Development"]
    (mk_limits 50 500 1000 10000 1 true true true true true true) 30.

Record SubscriptionManager : Type := mkManager {
  stripe_enabled : bool;
  plans : dict Plan
}.

(** [__init__]: the manager with the built-in plans. *)
Definition new_manager (stripe : bool) : SubscriptionManager :=
  mkManager stripe
    [("free", free_plan); ("basic", basic_plan);
     ("premium", premium_plan); ("ultimate", ultimate_plan)].

Definition get_plan (self : SubscriptionManager) (plan_id : string)
  : option Plan :=
  dict_get (plans self) plan_id.

Definition feature_map : dict string :=
  [("real_time_data", "real_time_data");
   ("ai_predictions", "ai_predictions");
   ("whale_detection", "whale_detection");
   ("portfolio_optimizer", "advanced_indicators");
   ("automated_trading", "automated_trading");
   ("api_access", "api_access")].

Definition can_user_access_feature (self : SubscriptionManager)
    (user_tier feature_name : string) : value :=
  match get_plan self user_tier with
  | None => VBool false
  | Some plan =>
      match dict_get feature_map feature_name with
      | Some limit_key =>
          if negb (String.eqb limit_key "") then
            match dict_get (limits plan) limit_key with
            | Some v => v
            | None => VBool false
            end
          else VBool true
      | None => VBool true
      end
  end.

Definition tier_order : list string :=
  ["free"; "basic"; "premium"; "ultimate"].

(** [l.index(x)] *)
Fixpoint index (l : list string) (x : string) : result nat :=
  match l with
  | [] => Raise ValueError
  | y :: rest => if String.eqb x y then Ok 0%nat
                 else i <- index rest x ;; Ok (S i)
  end.

(** [d[key]] *)
Definition dict_item {V : Type} (d : dict V) (key : string) : result V :=
  match dict_get d key with
  | Some v => Ok v
  | None => Raise (KeyError key)
  end.

(** [usage_stats.get(key, 0)]; the usage figures are counts. *)
Definition usage_of (usage_stats : dict Z) (key : string) : Q :=
  match dict_get usage_stats key with
  | Some n => inject_Z n
  | None => 0
  end.

Definition get_upgrade_recommendation (self : SubscriptionManager)
    (current_tier : string) (usage_stats : dict Z) : result string :=
  match get_plan self current_tier with
  | None => Ok "none"
  | Some current_plan =>
      let alerts_used := usage_of usage_stats "alerts_used" in
      alerts_limit <- dict_item (limits current_plan) "max_alerts" ;;
      let scans_used := usage_of usage_stats "scans_used" in
      scans_limit <- dict_item (limits current_plan) "daily_scans" ;;
      let api_calls_used := usage_of usage_stats "api_calls_used" in
      api_calls_limit <-
        dict_item (limits current_plan) "api_calls_per_day" ;;
      if Qle_bool (number alerts_limit * 0.8) alerts_used
         || Qle_bool (number scans_limit * 0.8) scans_used
         || Qle_bool (number api_calls_limit * 0.8) api_calls_used
      then
        current_index <- index tier_order current_tier ;;
        if (current_index <? List.length tier_order - 1)%nat then
          match nth_error tier_order (current_index + 1) with
          | Some next => Ok next
          | None => Raise IndexError
          end
        else Ok "none"
      else Ok "none"
  end.

(** The dictionary returned by [calculate_savings]; the key
    ["new_features"] is absent when a plan is unknown. *)
Record Savings : Type := mkSavings {
  monthly_savings : Q;
  yearly_savings : Q;
  new_features : option (list string)
}.

Definition in_list (x : string) (l : list string) : bool :=
  existsb (String.eqb x) l.

(** [set(target) - set(current)], listed in the order of [target]
    (Python leaves the order of a set unspecified). *)
Definition set_difference (target current : list string) : list string :=
  filter (fun f => negb (in_list f current)) (nodup string_dec target).

(** [max(0, x)] *)
Definition max0 (x : Q) : Q := if Qltb 0 x then x else 0.

Definition calculate_savings (self : SubscriptionManager)
    (current_tier target_tier : string) : Savings :=
  match get_plan self current_tier, get_plan self target_tier with
  | Some current_plan, Some target_plan =>
      let new := set_difference (features target_plan)
                   (features current_plan) in
      let feature_value := inject_Z (Z.of_nat (List.length new)) * 20 in
      let monthly :=
        feature_value -
        (price_monthly target_plan - price_monthly current_plan) in
      let yearly :=
        feature_value * 12 -
        (price_yearly target_plan - price_yearly current_plan) in
      mkSavings (max0 monthly) (max0 yearly) (Some new)
  | _, _ => mkSavings 0 0 None
  end.

(** The dictionary returned by [get_user_plan_info]; empty for an
    unknown tier. *)
Record PlanInfo : Type := mkPlanInfo {
  info_name : string;
  info_tier : string;
  info_price_monthly : Q;
  info_price_yearly : Q;
  info_features : list string;
  info_limits : dict value
}.

Definition get_user_plan_info (self : SubscriptionManager)
    (user_tier : string) : option PlanInfo :=
  match get_plan self user_tier with
  | None => None
  | Some plan =>
      Some (mkPlanInfo (name plan) user_tier (price_monthly plan)
              (price_yearly plan) (features plan) (limits plan))
  end.

(** The plan label shown by app.py: [plan_info.get('name', 'Free')]. *)
Definition current_plan_label (self : SubscriptionManager)
    (user_tier : string) : string :=
  match get_user_plan_info self user_tier with
  | Some info => info_name info
  | None => "Free"
  end.

End Subscription.

(** The [j - k] entries of a series that come before its last [k], among
    its last [j]. *)
Definition earlier (k j : nat) (s : list Q) : list Q :=
  firstn (j - k) (tail j s).

(** ** Binary64 arithmetic

    Where a score or a price level turns on the last bit of a float64
    value, exact rationals differ from the program: the double nearest
    to 4.2 divided by the double nearest to 2.8 is above 1.5, and the
    product 2.5 * 0.93 is above 2.325.  The volume score, the trend
    score, the trade plan and the live quote are embedded here over IEEE
    754 binary64 values, with the operations of [SpecFloat] at precision
    53 (round to nearest, ties to even).  A Python [int] that meets a
    float (the scores 50, 90, ..., the bounds 0, 1, 2) is the double of
    the same value. *)

Module Binary64.

Definition f64 : Type := spec_float.

Definition prec : Z := 53%Z.
Definition emax : Z := 1024%Z.

Definition add : f64 -> f64 -> f64 := SFadd prec emax.
Definition sub : f64 -> f64 -> f64 := SFsub prec emax.
Definition mul : f64 -> f64 -> f64 := SFmul prec emax.
Definition div : f64 -> f64 -> f64 := SFdiv prec emax.
Definition abs : f64 -> f64 := SFabs.

(** [x == y], [x < y], [x > y], [x >= y]; every comparison with [nan] is
    false, and the two zeros are equal. *)
Definition eqb : f64 -> f64 -> bool := SFeqb.
Definition ltb : f64 -> f64 -> bool := SFltb.
Definition gtb (x y : f64) : bool := SFltb y x.
Definition geb (x y : f64) : bool := SFleb y x.

Definition is_finite (x : f64) : bool :=
  match x with
  | S754_zero _ | S754_finite _ _ _ => true
  | S754_infinity _ | S754_nan => false
  end.

(** The double nearest to an integer: [float(n)], and an [int] operand of
    a float operation or comparison. *)
Definition of_Z (n : Z) : f64 := binary_normalize prec emax n 0 false.

(** The double nearest to a rational: the value of a decimal literal. *)
Definition of_Q (q : Q) : f64 :=
  match Qnum q with
  | Z0 => S754_zero false
  | Zpos n => div (S754_finite false n 0) (S754_finite false (Qden q) 0)
  | Zneg n => div (S754_finite true n 0) (S754_finite false (Qden q) 0)
  end.

(** The rational a finite double stands for. *)
Definition to_Q (x : f64) : Q :=
  match x with
  | S754_finite s m e =>
      let v :=
        match e with
        | Z0 => inject_Z (Zpos m)
        | Zpos p => inject_Z (Zpos m * 2 ^ Zpos p)
        | Zneg p => Zpos m # (2 ^ p)%positive
        end in
      if s then - v else v
  | _ => 0
  end.

(** Python's [round(x, 2)] on a float: the exact value of [x] is rounded
    to two decimals, ties to even, and the double nearest to that decimal
    is returned; a result of zero keeps the sign of [x]; [inf] and [nan]
    are returned unchanged. *)
Definition round2 (x : f64) : f64 :=
  match x with
  | S754_finite s _ _ =>
      match round_half_even (to_Q x * 100) with
      | Z0 => S754_zero s
      | k => of_Q (k # 100)
      end
  | _ => x
  end.

(** [int(x)]: truncation toward zero; [nan] raises [ValueError] and an
    infinity [OverflowError]. *)
Definition py_int (x : f64) : result Z :=
  match x with
  | S754_zero _ => Ok 0%Z
  | S754_finite s m e =>
      let n :=
        match e with
        | Z0 => Zpos m
        | Zpos p => (Zpos m * 2 ^ Zpos p)%Z
        | Zneg p => (Zpos m / 2 ^ Zpos p)%Z
        end in
      Ok (if s then (- n)%Z else n)
  | S754_infinity _ => Raise OtherError
  | S754_nan => Raise ValueError
  end.

(** *** Frames *)

(** A cell of the Volume column: yfinance delivers share counts as
    [int64]; a column with gaps is [float64] and can hold [nan]. *)
Inductive number : Type :=
| Int (n : Z)
| Float (x : f64).

(** A cell that holds a number: not [nan] and not an infinity. *)
Definition is_number (v : number) : bool :=
  match v with
  | Int _ => true
  | Float x => is_finite x
  end.

(** [int(v)] on a cell. *)
Definition int (v : number) : result Z :=
  match v with
  | Int n => Ok n
  | Float x => py_int x
  end.

Record Bar : Type := mkBar { Close : f64; Volume : number }.

Record DataFrame : Type := mkFrame {
  columns : list string;
  rows : list Bar
}.

Definition len (data : DataFrame) : nat := List.length (rows data).

Definition empty (data : DataFrame) : bool :=
  match columns data, rows data with
  | [], _ | _, [] => true
  | _, _ => false
  end.

Definition has_column (data : DataFrame) (name : string) : bool :=
  existsb (String.eqb name) (columns data).

Definition closes (data : DataFrame) : list f64 := map Close (rows data).
Definition volumes (data : DataFrame) : list number := map Volume (rows data).

(** [data['Close']] and [data['Volume']] *)
Definition Close_column (data : DataFrame) : result (list f64) :=
  if has_column data "Close" then Ok (closes data)
  else Raise (KeyError "Close").

Definition Volume_column (data : DataFrame) : result (list number) :=
  if has_column data "Volume" then Ok (volumes data)
  else Raise (KeyError "Volume").

(** [s.iloc[-k]] and [a[-k]], for [k >= 1]. *)
Definition iloc_neg {A : Type} (s : list A) (k : nat) : result A :=
  if (k <=? List.length s)%nat then
    match nth_error s (List.length s - k) with
    | Some v => Ok v
    | None => Raise IndexError
    end
  else Raise IndexError.

(** [s.iloc[-k:]] and [a[-k:]] *)
Definition tail {A : Type} (k : nat) (s : list A) : list A :=
  skipn (List.length s - k) s.

(** *** The volume and trend scores *)

Section Means.

(** [Series.mean] of pandas and [np.mean] of numpy.  In which order they
    add the values, and so how the sum is rounded, is left to the
    library; the scores are defined for any such function. *)
Variable Series_mean : list number -> f64.
Variable np_mean : list f64 -> f64.

Definition _calculate_volume (data : DataFrame) : result f64 :=
  if (len data <? 10)%nat || negb (has_column data "Volume") then
    Ok (of_Z 50)
  else
    volume <- Volume_column data ;;
    let recent_volume := Series_mean (tail 5 volume) in
    let avg_volume :=
      if (20 <=? len data)%nat then Series_mean (tail 20 volume)
      else recent_volume in
    if eqb avg_volume (of_Z 0) then Ok (of_Z 50)
    else
      let volume_ratio := div recent_volume avg_volume in
      if gtb volume_ratio (of_Z 2) then Ok (of_Z 90)
      else if gtb volume_ratio (of_Q 1.5) then Ok (of_Z 75)
      else if gtb volume_ratio (of_Z 1) then Ok (of_Z 60)
      else Ok (of_Z 40).

Definition _calculate_trend (data : DataFrame) : result f64 :=
  if (len data <? 20)%nat then Ok (of_Z 50)
  else
    prices <- Close_column data ;;
    let ma_short := np_mean (tail 10 prices) in
    let ma_long := np_mean (tail 20 prices) in
    last <- iloc_neg prices 1 ;;
    if gtb last ma_short && gtb ma_short ma_long then Ok (of_Z 85)
    else if ltb last ma_short && ltb ma_short ma_long then Ok (of_Z 15)
    else Ok (of_Z 50).

End Means.

(** *** The trade plan *)

Record TradePlan : Type := mkPlan {
  direction : string;
  entry : f64;
  stop_loss : f64;
  target : f64;
  risk_reward : f64;
  timeframe : string;
  position_size : string;
  confidence : string
}.

(** The keys of the analysis dictionary that the plan reads; ['price']
    and ['trend'] are missing from the analysis of an empty frame. *)
Record Analysis : Type := mkAnalysis {
  ticker : string;
  price : option f64;
  trend : option string;
  score : f64
}.

Definition _generate_trade_plan (analysis : Analysis) : result TradePlan :=
  current_price <- lookup (price analysis) "price" ;;
  let score := score analysis in
  trend <- lookup (trend analysis) "trend" ;;
  let '(direction, entry, stop_loss, target) :=
    if String.eqb trend "BULLISH" then
      ("LONG", current_price,
       mul current_price (of_Q 0.93), mul current_price (of_Q 1.21))
    else
      ("SHORT", current_price,
       mul current_price (of_Q 1.07), mul current_price (of_Q 0.79)) in
  let risk := abs (sub entry stop_loss) in
  let reward := abs (sub target entry) in
  let risk_reward := if gtb risk (of_Z 0) then div reward risk else of_Z 0 in
  let '(confidence, position) :=
    if geb score (of_Z 85) then ("VERY HIGH", "10-15%")
    else if geb score (of_Z 75) then ("HIGH", "7-10%")
    else ("MODERATE", "5-7%") in
  Ok (mkPlan direction (round2 entry) (round2 stop_loss) (round2 target)
        (round2 risk_reward) "3-10 days" position confidence).

(** *** Live quotes (LiveDataEngine.get_real_time_quote) *)

Record Quote : Type := mkQuote {
  quote_price : f64;
  quote_volume : Z;
  quote_timestamp : Z;
  quote_source : string
}.

(** The provider call [yf.Ticker(ticker).history(...)] is an input: it
    raises or returns a frame; [now] is the clock reading.  Whatever is
    raised inside the [try] leads to the fallback quote. *)
Definition get_real_time_quote (history : string -> result DataFrame)
    (now : Z) (ticker : string) : Quote :=
  match
    (data <- history ticker ;;
     if negb (empty data) then
       close <- Close_column data ;;
       last_close <- iloc_neg close 1 ;;
       volume <- Volume_column data ;;
       last_volume <- iloc_neg volume 1 ;;
       shares <- int last_volume ;;
       Ok (Some (mkQuote last_close shares now "yfinance"))
     else Ok None)
  with
  | Ok (Some quote) => quote
  | Ok None | Raise _ => mkQuote (of_Q 100.00) 1000000 now "fallback"
  end.

(** *** Sample data *)

Definition to_f64 (v : number) : f64 :=
  match v with
  | Int n => of_Z n
  | Float x => x
  end.

(** One mean among those the library may compute: the values are added
    from the left and the sum is divided by their count. *)
Definition mean_left (s : list f64) : f64 :=
  div (fold_left add s (of_Z 0)) (of_Z (Z.of_nat (List.length s))).

Definition mean_of_cells (s : list number) : f64 := mean_left (map to_f64 s).

Definition ohlcv : list string := ["Open"; "High"; "Low"; "Close"; "Volume"].

Definition bars (closes : list Q) (volumes : list Z) : list Bar :=
  map (fun cv => mkBar (of_Q (fst cv)) (Int (snd cv))) (combine closes volumes).

(** Twenty bars closing at 1.91 throughout; the last five trade 21 shares
    together and all twenty 56, so that the two mean volumes are the
    doubles nearest to 4.2 and 2.8. *)
Definition flat : DataFrame :=
  mkFrame ohlcv
    (bars (repeat 1.91 20)
          (repeat 2%Z 10 ++ repeat 3%Z 5 ++ [4; 4; 4; 4; 5]%Z)).

(** Twenty bars whose closes rise by 1 from 100, on a volume of 7. *)
Definition climbing : DataFrame :=
  mkFrame ohlcv
    (bars (map (fun i => inject_Z (100 + Z.of_nat i)) (seq 0 20))
          (repeat 7%Z 20)).

(** A frame whose last volume is missing. *)
Definition gap : DataFrame :=
  mkFrame ohlcv [mkBar (of_Q 10) (Float (of_Z 5)); mkBar (of_Q 11) (Float S754_nan)].

Definition analysis_of (p : Q) (t : string) (s : Z) : Analysis :=
  mkAnalysis "NVDA" (Some (of_Q p)) (Some t) (of_Z s).

End Binary64.

(** ** Facts about the numeric model *)

Lemma Qltb_lt (x y : Q) : Qltb x y = true <-> x < y.
Proof.
  unfold Qltb. rewrite negb_true_iff.
  destruct (Qle_bool y x) eqn:E.
  - apply Qle_bool_iff in E. split; [discriminate | intros H; lra].
  - split; [intros _ | reflexivity].
    destruct (Qlt_le_dec x y) as [H | H]; [exact H |].
    apply Qle_bool_iff in H. congruence.
Qed.

Lemma Qltb_ge (x y : Q) : Qltb x y = false <-> y <= x.
Proof.
  unfold Qltb. rewrite negb_false_iff. apply Qle_bool_iff.
Qed.

Lemma Qeq_bool_false (x y : Q) : Qeq_bool x y = false <-> ~ x == y.
Proof.
  split.
  - apply Qeq_bool_neq.
  - intros H. destruct (Qeq_bool x y) eqn:E; [| reflexivity].
    apply Qeq_bool_iff in E. contradiction.
Qed.

Lemma Qltb_comp (a b c d : Q) : a == c -> b == d -> Qltb a b = Qltb c d.
Proof. intros H1 H2. unfold Qltb. f_equal. now apply Qleb_comp. Qed.

(** Case analysis on a boolean comparison of rationals. *)
Ltac qcases :=
  repeat match goal with
  | |- context [Qltb ?a ?b] =>
      let E := fresh "E" in
      destruct (Qltb a b) eqn:E;
      [apply Qltb_lt in E | apply Qltb_ge in E]
  | |- context [Qle_bool ?a ?b] =>
      let E := fresh "E" in
      destruct (Qle_bool a b) eqn:E;
      [apply Qle_bool_iff in E
      | apply not_true_iff_false in E; rewrite Qle_bool_iff in E]
  | |- context [Qeq_bool ?a ?b] =>
      let E := fresh "E" in
      destruct (Qeq_bool a b) eqn:E;
      [apply Qeq_bool_iff in E | apply Qeq_bool_false in E]
  end.

(** [max(0, min(100, x))] is a finite number of [0, 100] whatever [x] is,
    [nan] and the infinities included. *)
Lemma clamp_range (x : float) :
  exists q, py_max (Fin 0) (py_min (Fin 100) x) = Fin q /\ 0 <= q <= 100.
Proof.
  destruct x as [a | | |]; unfold py_max, py_min, fgt, flt.
  - destruct (Qltb a 100) eqn:E1.
    + apply Qltb_lt in E1. destruct (Qltb 0 a) eqn:E2.
      * apply Qltb_lt in E2. exists a. split; [reflexivity | lra].
      * exists 0. split; [reflexivity | lra].
    + exists 100. split; [reflexivity | lra].
  - exists 100. split; [reflexivity | lra].
  - exists 0. split; [reflexivity | lra].
  - exists 100. split; [reflexivity | lra].
Qed.

Lemma clamp_fin (a : Q) :
  exists q, py_max (Fin 0) (py_min (Fin 100) (Fin a)) = Fin q /\
            q == clamp_0_100 a.
Proof.
  unfold py_max, py_min, fgt, flt, clamp_0_100.
  destruct (Qltb a 100) eqn:E1.
  - apply Qltb_lt in E1. destruct (Qltb 0 a) eqn:E2.
    + apply Qltb_lt in E2. exists a. split; [reflexivity |].
      rewrite (Q.min_r 100 a) by lra. rewrite Q.max_r by lra. reflexivity.
    + apply Qltb_ge in E2. exists 0. split; [reflexivity |].
      rewrite (Q.min_r 100 a) by lra. rewrite Q.max_l by lra. reflexivity.
  - apply Qltb_ge in E1. simpl. exists 100. split; [reflexivity |].
    rewrite (Q.min_l 100 a) by lra. rewrite Q.max_r by lra. reflexivity.
Qed.

(** ** Reading a frame *)

Lemma getitem_Close (data : DataFrame) :
  has_column data "Close" = true -> getitem data "Close" = Ok (closes data).
Proof. intros H. unfold getitem. rewrite H. reflexivity. Qed.

Lemma getitem_Volume (data : DataFrame) :
  has_column data "Volume" = true -> getitem data "Volume" = Ok (volumes data).
Proof. intros H. unfold getitem. rewrite H. reflexivity. Qed.

Lemma closes_length (data : DataFrame) : List.length (closes data) = len data.
Proof. apply length_map. Qed.

Lemma volumes_length (data : DataFrame) : List.length (volumes data) = len data.
Proof. apply length_map. Qed.

Lemma iloc_neg_ok (s : list Q) (k : nat) :
  (k <= List.length s)%nat ->
  iloc_neg s k = Ok (Fin (nth (List.length s - k) s 0)).
Proof.
  intros H. unfold iloc_neg.
  destruct (Nat.leb_spec k (List.length s)); [reflexivity | lia].
Qed.

(** ** Momentum *)

Lemma momentum_short (data : DataFrame) :
  (len data < 10)%nat -> _calculate_momentum data = Ok (Fin 50).
Proof.
  intros H. unfold _calculate_momentum.
  destruct (Nat.ltb_spec (len data) 10); [reflexivity | lia].
Qed.

(** With ten bars or more and a Close column, the score is the clamped
    image of the change between the last close and the fifth from last. *)
Lemma momentum_long (data : DataFrame) :
  (10 <= len data)%nat -> has_column data "Close" = true ->
  let last := Fin (nth (len data - 1) (closes data) 0) in
  let prior := Fin (nth (len data - 5) (closes data) 0) in
  _calculate_momentum data =
  Ok (py_max (Fin 0) (py_min (Fin 100)
        (fadd (Fin 50)
           (fmul (fmul (fdiv (fsub last prior) prior) (Fin 100)) (Fin 2))))).
Proof.
  intros Hn Hc. unfold _calculate_momentum.
  destruct (Nat.ltb_spec (len data) 10); [lia |].
  destruct (Nat.leb_spec 5 (len data)); [| lia].
  rewrite (getitem_Close _ Hc). cbn [bind].
  rewrite !iloc_neg_ok by (rewrite closes_length; lia).
  rewrite closes_length. reflexivity.
Qed.

(** The momentum score never leaves [0, 100]. *)
Lemma momentum_range (data : DataFrame) (m : float) :
  _calculate_momentum data = Ok m -> exists q, m = Fin q /\ 0 <= q <= 100.
Proof.
  unfold _calculate_momentum.
  destruct (len data <? 10)%nat.
  - intros H. injection H as <-. exists 50. split; [reflexivity | lra].
  - destruct (5 <=? len data)%nat.
    + destruct (getitem data "Close") as [cs | e]; [| discriminate].
      cbn [bind].
      destruct (iloc_neg cs 1) as [l | e]; [| discriminate].
      destruct (iloc_neg cs 5) as [p | e]; [| discriminate].
      cbn [bind]. intros H. injection H as <-. apply clamp_range.
    + cbn [bind]. intros H. injection H as <-. apply clamp_range.
Qed.

(** When the reference close is 0 the change is [inf], [-inf] or [nan], and
    the clamp maps it to 100 or 0. *)
Lemma momentum_zero_prior (data : DataFrame) :
  (10 <= len data)%nat -> has_column data "Close" = true ->
  let latest := nth (len data - 1) (closes data) 0 in
  nth (len data - 5) (closes data) 0 == 0 ->
  _calculate_momentum data = Ok (Fin (if Qltb latest 0 then 0 else 100)).
Proof.
  intros Hn Hc latest Hp.
  rewrite (momentum_long data Hn Hc). fold latest.
  set (prior := nth (len data - 5) (closes data) 0) in *.
  unfold fsub, fneg, fadd, fdiv.
  rewrite (Qeq_eq_bool _ _ Hp). unfold sign_inf.
  rewrite (Qltb_comp 0 (latest + - prior) 0 latest) by (reflexivity || lra).
  rewrite (Qltb_comp (latest + - prior) 0 latest 0) by (reflexivity || lra).
  destruct (Qltb 0 latest) eqn:E1.
  - apply Qltb_lt in E1.
    assert (E2 : Qltb latest 0 = false) by (apply Qltb_ge; lra).
    rewrite E2. reflexivity.
  - destruct (Qltb latest 0); reflexivity.
Qed.

(** C4 (as amended): a frame of fewer than 10 bars has momentum 50; a
    frame of at least 10 bars has momentum 50 + 2 x (percent change from
    the close of the fifth bar from the end, four bars before the latest,
    to the latest close), clamped to [0, 100], that close being nonzero. *)
Theorem momentum_fifth_from_last (data : DataFrame) :
  ((len data < 10)%nat -> _calculate_momentum data = Ok (Fin 50)) /\
  ((10 <= len data)%nat -> has_column data "Close" = true ->
   let latest := nth (len data - 1) (closes data) 0 in
   let prior := nth (len data - 5) (closes data) 0 in
   ~ prior == 0 ->
   exists m, _calculate_momentum data = Ok (Fin m) /\
             m == clamp_0_100 (50 + 2 * pct_change latest prior)).
Proof.
  split; [apply momentum_short |].
  intros Hn Hc latest prior Hp.
  rewrite (momentum_long data Hn Hc). fold latest prior.
  unfold fsub, fneg, fadd, fdiv.
  rewrite (proj2 (Qeq_bool_false prior 0) Hp). unfold fmul, fadd.
  destruct (clamp_fin (50 + (latest + - prior) / prior * 100 * 2))
    as [q [Hq Hc']].
  exists q. split; [now rewrite Hq |].
  rewrite Hc'. unfold clamp_0_100, pct_change.
  assert (E : 50 + (latest + - prior) / prior * 100 * 2 ==
              50 + 2 * ((latest - prior) / prior * 100)) by (field; exact Hp).
  rewrite E. reflexivity.
Qed.

Lemma momentum_fifth_from_last_witness :
  _calculate_momentum (mkFrame [] []) = Ok (Fin 50) /\
  exists m, _calculate_momentum rising = Ok (Fin m) /\
            m == clamp_0_100 (50 + 2 * pct_change 290 250).
Proof.
  split.
  - apply (proj1 (momentum_fifth_from_last (mkFrame [] []))).
    unfold len. simpl. lia.
  - apply (proj2 (momentum_fifth_from_last rising)).
    + unfold len. simpl. lia.
    + reflexivity.
    + vm_compute. discriminate.
Defined.

(** C4 (as stated) fails: on [dip] the close five bars before the latest
    is 50 and the latest is 100, a change of 100 percent that would
    saturate the score, but the program compares with the close four bars
    before the latest and answers 50. *)
Lemma momentum_5_bars_prior_fails :
  exists m, _calculate_momentum dip = Ok (Fin m) /\ m == 50 /\
            momentum_5_bars_prior (closes dip) == 100 /\
            ~ m == momentum_5_bars_prior (closes dip).
Proof.
  eexists. split; [vm_compute; reflexivity |].
  split; [vm_compute; reflexivity |].
  split; [vm_compute; reflexivity |].
  vm_compute. discriminate.
Qed.

(** ** Windows and means *)

Lemma tail_length (k : nat) (s : list Q) :
  List.length (tail k s) = Nat.min k (List.length s).
Proof. unfold tail. rewrite length_skipn. lia. Qed.

Lemma mean_average (s : list Q) :
  (0 < List.length s)%nat -> mean s = Fin (average s).
Proof.
  intros H. unfold mean, average, fdiv.
  destruct (Qeq_bool (inject_Z (Z.of_nat (List.length s))) 0) eqn:E;
    [| reflexivity].
  apply Qeq_bool_iff in E. unfold Qeq in E. simpl in E. lia.
Qed.

Lemma mean_tail (k : nat) (s : list Q) :
  (0 < k)%nat -> (0 < List.length s)%nat ->
  mean (tail k s) = Fin (average (tail k s)).
Proof. intros Hk Hs. apply mean_average. rewrite tail_length. lia. Qed.

(** ** Volume *)

Lemma volume_neutral (data : DataFrame) :
  (len data < 10)%nat \/ has_column data "Volume" = false ->
  _calculate_volume data = Ok (Fin 50).
Proof.
  intros H. unfold _calculate_volume.
  destruct (Nat.ltb_spec (len data) 10); [reflexivity |].
  destruct H as [H | H]; [lia |]. rewrite H. reflexivity.
Qed.

Lemma volume_long (data : DataFrame) :
  (10 <= len data)%nat -> has_column data "Volume" = true ->
  let recent := average (tail 5 (volumes data)) in
  let longer :=
    if (20 <=? len data)%nat then average (tail 20 (volumes data))
    else recent in
  _calculate_volume data =
  if Qeq_bool longer 0 then Ok (Fin 50)
  else if Qltb 2 (recent / longer) then Ok (Fin 90)
  else if Qltb 1.5 (recent / longer) then Ok (Fin 75)
  else if Qltb 1 (recent / longer) then Ok (Fin 60)
  else Ok (Fin 40).
Proof.
  intros Hn Hv recent longer. unfold _calculate_volume.
  destruct (Nat.ltb_spec (len data) 10); [lia |].
  rewrite Hv, (getitem_Volume _ Hv). cbn [negb orb bind].
  rewrite !mean_tail by (rewrite ?volumes_length; lia).
  fold recent.
  replace (if (20 <=? len data)%nat
           then Fin (average (tail 20 (volumes data))) else Fin recent)
    with (Fin longer) by (unfold longer; now destruct (20 <=? len data)%nat).
  unfold feq, fgt, flt, fdiv.
  destruct (Qeq_bool longer 0); reflexivity.
Qed.

(** ** Trend *)

Lemma trend_short (data : DataFrame) :
  (len data < 20)%nat -> _calculate_trend data = Ok (Fin 50).
Proof.
  intros H. unfold _calculate_trend.
  destruct (Nat.ltb_spec (len data) 20); [reflexivity | lia].
Qed.

Lemma trend_long (data : DataFrame) :
  (20 <= len data)%nat -> has_column data "Close" = true ->
  let latest := nth (len data - 1) (closes data) 0 in
  let ma10 := average (tail 10 (closes data)) in
  let ma20 := average (tail 20 (closes data)) in
  _calculate_trend data =
  if Qltb ma10 latest && Qltb ma20 ma10 then Ok (Fin 85)
  else if Qltb latest ma10 && Qltb ma10 ma20 then Ok (Fin 15)
  else Ok (Fin 50).
Proof.
  intros Hn Hc latest ma10 ma20. unfold _calculate_trend.
  destruct (Nat.ltb_spec (len data) 20); [lia |].
  rewrite (getitem_Close _ Hc). cbn [bind].
  rewrite !mean_tail by (rewrite ?closes_length; lia).
  rewrite iloc_neg_ok by (rewrite closes_length; lia).
  rewrite closes_length. reflexivity.
Qed.

(** ** The sub-scores are total and bounded *)

Lemma momentum_total (data : DataFrame) :
  has_column data "Close" = true ->
  exists m, _calculate_momentum data = Ok (Fin m) /\ 0 <= m <= 100.
Proof.
  intros Hc.
  destruct (Nat.lt_ge_cases (len data) 10) as [H | H].
  - exists 50. split; [now apply momentum_short | lra].
  - rewrite (momentum_long data H Hc).
    match goal with |- context [py_min _ ?x] =>
      destruct (clamp_range x) as [q [Hq Hr]] end.
    exists q. split; [now rewrite Hq | exact Hr].
Qed.

Lemma volume_total (data : DataFrame) :
  exists v, _calculate_volume data = Ok (Fin v) /\ 0 <= v <= 100.
Proof.
  destruct (Nat.lt_ge_cases (len data) 10) as [H | H].
  - exists 50. split; [apply volume_neutral; now left | lra].
  - destruct (has_column data "Volume") eqn:Hv.
    + rewrite (volume_long data H Hv).
      repeat match goal with
      | |- context [if ?c then _ else _] => destruct c
      end; eexists; (split; [reflexivity | lra]).
    + exists 50. split; [apply volume_neutral; now right | lra].
Qed.

Lemma trend_total (data : DataFrame) :
  has_column data "Close" = true ->
  exists t, _calculate_trend data = Ok (Fin t) /\ 0 <= t <= 100.
Proof.
  intros Hc.
  destruct (Nat.lt_ge_cases (len data) 20) as [H | H].
  - exists 50. split; [now apply trend_short | lra].
  - rewrite (trend_long data H Hc).
    repeat match goal with
    | |- context [if ?c then _ else _] => destruct c
    end; eexists; (split; [reflexivity | lra]).
Qed.

(** ** Analysis *)

Lemma empty_rows (data : DataFrame) :
  has_column data "Close" = true ->
  empty data = match rows data with [] => true | _ => false end.
Proof.
  unfold has_column, empty. destruct (columns data); [discriminate |].
  reflexivity.
Qed.

(** On a frame with rows and a Close column the analysis returns the
    full dictionary, its score being the weighted sum of the sub-scores. *)
Lemma analyze_nonempty (tk : string) (data : DataFrame) :
  has_column data "Close" = true -> (0 < len data)%nat ->
  exists m v t a,
    _calculate_momentum data = Ok (Fin m) /\ 0 <= m <= 100 /\
    _calculate_volume data = Ok (Fin v) /\ 0 <= v <= 100 /\
    _calculate_trend data = Ok (Fin t) /\ 0 <= t <= 100 /\
    _analyze_stock tk data = Ok a /\
    ticker a = tk /\
    price a = Some (Fin (nth (len data - 1) (closes data) 0)) /\
    (exists l, trend a = Some l) /\
    score a = Fin (m * 0.4 + v * 0.3 + t * 0.3) /\
    trade_plan a = None.
Proof.
  intros Hc Hn.
  destruct (momentum_total data Hc) as [m [Hm Rm]].
  destruct (volume_total data) as [v [Hv Rv]].
  destruct (trend_total data Hc) as [t [Ht Rt]].
  exists m, v, t.
  assert (He : empty data = false).
  { rewrite (empty_rows data Hc). unfold len in Hn.
    destruct (rows data); [simpl in Hn; lia | reflexivity]. }
  unfold _analyze_stock.
  rewrite He, Hc, Hm, Hv, Ht, (getitem_Close _ Hc). cbn [bind].
  rewrite (iloc_neg_ok (closes data) 1) by (rewrite closes_length; lia).
  cbn [bind]. rewrite closes_length.
  destruct (Nat.leb_spec 2 (len data)) as [H2 | H2].
  - rewrite (iloc_neg_ok (closes data) 2) by (rewrite closes_length; lia).
    cbn [bind]. eexists.
    repeat split; try eassumption; try lra; cbn [trend]; eauto.
  - eexists.
    repeat split; try eassumption; try lra; cbn [trend]; eauto.
Qed.

(** C7: on every bar sequence (a frame that carries closes, or an empty
    frame) the analysis returns: the combined score is 0.4 x momentum
    + 0.3 x volume + 0.3 x trend when there are bars, 0 when the sequence
    is empty, and it lies in [0, 100]. *)
Theorem analysis_combined_score (tk : string) (data : DataFrame) :
  has_column data "Close" = true \/ empty data = true ->
  exists a, _analyze_stock tk data = Ok a /\
    (empty data = true -> score a = Fin 0) /\
    (empty data = false ->
     exists m v t s,
       _calculate_momentum data = Ok (Fin m) /\
       _calculate_volume data = Ok (Fin v) /\
       _calculate_trend data = Ok (Fin t) /\
       score a = Fin s /\ s == 0.4 * m + 0.3 * v + 0.3 * t) /\
    (exists s, score a = Fin s /\ 0 <= s <= 100).
Proof.
  intros Hc. destruct (empty data) eqn:He.
  - exists (mkAnalysis tk None None None (Fin 0) None None None None).
    split; [unfold _analyze_stock; now rewrite He |].
    split; [reflexivity |]. split; [discriminate |].
    exists 0. split; [reflexivity | lra].
  - destruct Hc as [Hc | Hc]; [| discriminate].
    assert (Hn : (0 < len data)%nat).
    { unfold empty in He. unfold len.
      destruct (columns data); [discriminate |].
      destruct (rows data); [discriminate | simpl; lia]. }
    destruct (analyze_nonempty tk data Hc Hn)
      as (m & v & t & a & Hm & Rm & Hv & Rv & Ht & Rt & Ha & _ & _ & _ & Hs & _).
    exists a. split; [exact Ha |]. split; [discriminate |]. split.
    + intros _. exists m, v, t, (m * 0.4 + v * 0.3 + t * 0.3).
      repeat split; try assumption. ring.
    + exists (m * 0.4 + v * 0.3 + t * 0.3). split; [exact Hs | lra].
Qed.

Lemma analysis_combined_score_witness :
  (exists a, _analyze_stock "NVDA" rising = Ok a /\
     exists s, score a = Fin s /\ s == 80.8) /\
  (exists a, _analyze_stock "NVDA" (mkFrame [] []) = Ok a /\
     score a = Fin 0).
Proof.
  split.
  - destruct (analysis_combined_score "NVDA" rising (or_introl eq_refl))
      as (a & Ha & _ & Hw & _).
    exists a. split; [exact Ha |].
    destruct (Hw eq_refl) as (m & v & t & s & Hm & Hv & Ht & Hs & E).
    exists s. split; [exact Hs |]. rewrite E.
    revert Hm Hv Ht. vm_compute.
    intros Hm Hv Ht. injection Hm as <-. injection Hv as <-.
    injection Ht as <-. reflexivity.
  - destruct (analysis_combined_score "NVDA" (mkFrame [] [])
                (or_intror eq_refl)) as (a & Ha & H0 & _).
    exists a. split; [exact Ha | now apply H0].
Defined.

(** Without a Close column the analysis of two bars or more raises
    [KeyError]; the scan loop catches it. *)
Lemma analyze_without_close :
  _analyze_stock "NVDA" (mkFrame ["Volume"] (flat_bars 2 100 1000)) =
  Raise (KeyError "Close").
Proof. reflexivity. Qed.

(** ** Trade plan *)

Lemma round_half_even_comp (x y : Q) :
  x == y -> round_half_even x = round_half_even y.
Proof.
  intros H. unfold round_half_even. rewrite (Qfloor_comp x y H).
  assert (E : x - inject_Z (Qfloor y) == y - inject_Z (Qfloor y))
    by (now apply Qplus_comp).
  rewrite (Qltb_comp _ 0.5 _ 0.5 E (Qeq_refl _)).
  rewrite (Qltb_comp 0.5 _ 0.5 _ (Qeq_refl _) E).
  reflexivity.
Qed.

Lemma Qround2_comp (x y : Q) : x == y -> Qround2 x = Qround2 y.
Proof.
  intros H. unfold Qround2. f_equal. f_equal. apply round_half_even_comp.
  now apply Qmult_comp.
Qed.

(** The plan built from an analysis that has a price and a trend label. *)
Lemma plan_shape (a : Analysis) (p : float) (t : string) :
  price a = Some p -> trend a = Some t ->
  let bull := String.eqb t "BULLISH" in
  let stop := fmul p (Fin (if bull then 0.93 else 1.07)) in
  let tgt := fmul p (Fin (if bull then 1.21 else 0.79)) in
  let risk := fabs (fsub p stop) in
  let reward := fabs (fsub tgt p) in
  let s := score a in
  _generate_trade_plan a =
  Ok (mkPlan (if bull then "LONG" else "SHORT")
        (round2 p) (round2 stop) (round2 tgt)
        (round2 (if fgt risk (Fin 0) then fdiv reward risk else Fin 0))
        "3-10 days"
        (if fge s (Fin 85) then "10-15%"
         else if fge s (Fin 75) then "7-10%" else "5-7%")
        (if fge s (Fin 85) then "VERY HIGH"
         else if fge s (Fin 75) then "HIGH" else "MODERATE")).
Proof.
  intros Hp Ht. unfold _generate_trade_plan. rewrite Hp, Ht. cbn [lookup bind].
  destruct (String.eqb t "BULLISH");
    destruct (fge (score a) (Fin 85)); destruct (fge (score a) (Fin 75));
    reflexivity.
Qed.

(** Risk and reward are 7 and 21 percent of the price in both directions. *)
Lemma risk_is_7_percent (p : Q) :
  Qabs (p + - (p * 0.93)) == 0.07 * Qabs p /\
  Qabs (p + - (p * 1.07)) == 0.07 * Qabs p.
Proof.
  split.
  - assert (E : p + - (p * 0.93) == 0.07 * p) by ring.
    rewrite (Qabs_wd _ _ E), Qabs_Qmult. reflexivity.
  - assert (E : p + - (p * 1.07) == - (0.07 * p)) by ring.
    rewrite (Qabs_wd _ _ E), Qabs_opp, Qabs_Qmult. reflexivity.
Qed.

Lemma reward_is_21_percent (p : Q) :
  Qabs (p * 1.21 + - p) == 0.21 * Qabs p /\
  Qabs (p * 0.79 + - p) == 0.21 * Qabs p.
Proof.
  split.
  - assert (E : p * 1.21 + - p == 0.21 * p) by ring.
    rewrite (Qabs_wd _ _ E), Qabs_Qmult. reflexivity.
  - assert (E : p * 0.79 + - p == - (0.21 * p)) by ring.
    rewrite (Qabs_wd _ _ E), Qabs_opp, Qabs_Qmult. reflexivity.
Qed.

Lemma Qabs_zero_iff (p : Q) : Qabs p == 0 <-> p == 0.
Proof.
  split; intros H.
  - assert (L : Qabs p <= 0) by lra.
    apply Qabs_Qle_condition in L. lra.
  - transitivity (Qabs 0); [now apply Qabs_wd | reflexivity].
Qed.

Lemma risk_reward_shape (t : string) (p : Q) :
  let risk := Qabs (p - level_stop t p) in
  let reward := Qabs (level_target t p - p) in
  (if fgt (Fin risk) (Fin 0) then fdiv (Fin reward) (Fin risk) else Fin 0) =
  if Qeq_bool risk 0 then Fin 0 else Fin (reward / risk).
Proof.
  intros risk reward. unfold fgt, flt, fdiv.
  pose proof (Qabs_nonneg (p - level_stop t p)) as Hr. fold risk in Hr.
  destruct (Qeq_bool risk 0) eqn:E.
  - apply Qeq_bool_iff in E.
    assert (F : Qltb 0 risk = false) by (apply Qltb_ge; lra).
    now rewrite F.
  - apply Qeq_bool_false in E.
    assert (F : Qltb 0 risk = true) by (apply Qltb_lt; lra).
    now rewrite F.
Qed.

Lemma plan_shape_fin (a : Analysis) (p : Q) (t : string) :
  price a = Some (Fin p) -> trend a = Some t ->
  let risk := Qabs (p - level_stop t p) in
  let reward := Qabs (level_target t p - p) in
  let s := score a in
  _generate_trade_plan a =
  Ok (mkPlan (if String.eqb t "BULLISH" then "LONG" else "SHORT")
        (Fin (Qround2 p)) (Fin (Qround2 (level_stop t p)))
        (Fin (Qround2 (level_target t p)))
        (round2 (if Qeq_bool risk 0 then Fin 0 else Fin (reward / risk)))
        "3-10 days"
        (if fge s (Fin 85) then "10-15%"
         else if fge s (Fin 75) then "7-10%" else "5-7%")
        (if fge s (Fin 85) then "VERY HIGH"
         else if fge s (Fin 75) then "HIGH" else "MODERATE")).
Proof.
  intros Hp Ht risk reward s. rewrite (plan_shape a (Fin p) t Hp Ht).
  cbv zeta. unfold risk, reward. rewrite <- (risk_reward_shape t p).
  unfold level_stop, level_target.
  destruct (String.eqb t "BULLISH"); reflexivity.
Qed.

(** C9: the confidence label and the position-size band are a step
    function of the combined score: VERY HIGH / 10-15% from 85 up,
    HIGH / 7-10% on [75, 85), MODERATE / 5-7% below 75. *)
Theorem confidence_bands (a : Analysis) (p : float) (t : string) (s : Q) :
  price a = Some p -> trend a = Some t -> score a = Fin s ->
  exists plan, _generate_trade_plan a = Ok plan /\
    (85 <= s ->
     confidence plan = "VERY HIGH" /\ position_size plan = "10-15%") /\
    (75 <= s < 85 ->
     confidence plan = "HIGH" /\ position_size plan = "7-10%") /\
    (s < 75 ->
     confidence plan = "MODERATE" /\ position_size plan = "5-7%").
Proof.
  intros Hp Ht Hs. rewrite (plan_shape a p t Hp Ht). cbv zeta. rewrite Hs.
  eexists. split; [reflexivity |].
  cbn [confidence position_size]. unfold fge, fle.
  repeat split; intros; qcases; reflexivity || lra.
Qed.

Lemma confidence_bands_witness :
  exists plan, _generate_trade_plan (analysis_of 100 "BULLISH" 80) = Ok plan /\
    confidence plan = "HIGH" /\ position_size plan = "7-10%".
Proof.
  destruct (confidence_bands (analysis_of 100 "BULLISH" 80) (Fin 100)
              "BULLISH" 80 eq_refl eq_refl eq_refl)
    as (plan & H & _ & B & _).
  exists plan. split; [exact H |]. apply B. lra.
Defined.

(** C10: for a strictly positive price the risk is 7 percent of the price
    and the reward 21 percent in both directions, the risk is not 0, and
    the plan's risk-reward ratio is exactly 3 whatever the price, the
    combined score and the direction. *)
Theorem risk_reward_is_three (a : Analysis) (p : Q) (t : string) :
  price a = Some (Fin p) -> trend a = Some t -> 0 < p ->
  let risk := Qabs (p - level_stop t p) in
  let reward := Qabs (level_target t p - p) in
  risk == 0.07 * p /\ reward == 0.21 * p /\ ~ risk == 0 /\
  exists plan, _generate_trade_plan a = Ok plan /\
               float_eq (risk_reward plan) (Fin 3).
Proof.
  intros Hp Ht Hpos risk reward.
  assert (Ha : Qabs p == p) by (apply Qabs_pos; lra).
  assert (Hrisk : risk == 0.07 * p).
  { unfold risk, level_stop.
    destruct (String.eqb t "BULLISH");
      [rewrite (proj1 (risk_is_7_percent p))
      | rewrite (proj2 (risk_is_7_percent p))];
      rewrite Ha; reflexivity. }
  assert (Hreward : reward == 0.21 * p).
  { unfold reward, level_target.
    destruct (String.eqb t "BULLISH");
      [rewrite (proj1 (reward_is_21_percent p))
      | rewrite (proj2 (reward_is_21_percent p))];
      rewrite Ha; reflexivity. }
  assert (Hnz : ~ risk == 0) by lra.
  repeat split; try assumption.
  rewrite (plan_shape_fin a p t Hp Ht). eexists. split; [reflexivity |].
  cbn [risk_reward]. fold risk reward.
  rewrite (proj2 (Qeq_bool_false _ _) Hnz). cbn [round2 float_eq].
  assert (E : reward / risk == 3).
  { rewrite Hrisk, Hreward. field. lra. }
  rewrite (Qround2_comp _ _ E). vm_compute. reflexivity.
Qed.

Lemma risk_reward_is_three_witness :
  exists plan, _generate_trade_plan (analysis_of 37.5 "BEARISH" 91) = Ok plan /\
               float_eq (risk_reward plan) (Fin 3).
Proof.
  apply (risk_reward_is_three (analysis_of 37.5 "BEARISH" 91) 37.5 "BEARISH"
           eq_refl eq_refl).
  reflexivity.
Defined.

(** ** Order on scores *)

Section ScoreOrder.

Implicit Types x y z : float.

Lemma fle_refl x : x <> NaN -> fle x x = true.
Proof.
  destruct x; intros H; try reflexivity; [| contradiction].
  apply Qle_bool_iff. lra.
Qed.

Lemma fle_trans x y z : fle x y = true -> fle y z = true -> fle x z = true.
Proof.
  destruct x, y, z; cbn; try congruence.
  rewrite !Qle_bool_iff. lra.
Qed.

Lemma flt_fle x y : flt x y = true -> fle x y = true.
Proof.
  destruct x, y; cbn; try congruence.
  rewrite Qltb_lt, Qle_bool_iff. lra.
Qed.

Lemma not_flt_fle x y :
  x <> NaN -> y <> NaN -> flt x y = false -> fle y x = true.
Proof.
  destruct x, y; cbn; try congruence.
  rewrite Qltb_ge, Qle_bool_iff. auto.
Qed.

Lemma flt_not_feq x y k : flt x y = true -> feq x k = true -> feq y k = false.
Proof.
  destruct x, y, k; cbn; try congruence.
  rewrite Qltb_lt, Qeq_bool_iff, Qeq_bool_false. lra.
Qed.

Lemma fge_not_nan x q : fge x (Fin q) = true -> x <> NaN.
Proof. destruct x; cbn; congruence. Qed.

End ScoreOrder.

(** ** The sort *)

Section Sorting.

Implicit Types (a x y : Analysis) (l : list Analysis).

Lemma insert_desc_perm x l : Permutation (insert_desc x l) (x :: l).
Proof.
  induction l as [| y l IH]; cbn; [reflexivity |].
  destruct (flt (score x) (score y)); [| reflexivity].
  rewrite IH. apply perm_swap.
Qed.

Lemma sort_perm l : Permutation (sort_by_score_desc l) l.
Proof.
  induction l as [| x l IH]; cbn; [reflexivity |].
  rewrite insert_desc_perm. now constructor.
Qed.

Lemma sort_Forall (P : Analysis -> Prop) l :
  Forall P l -> Forall P (sort_by_score_desc l).
Proof.
  intros H. eapply Permutation_Forall; [| exact H].
  symmetry. apply sort_perm.
Qed.

Lemma insert_desc_sorted x l :
  score x <> NaN -> Forall (fun a => score a <> NaN) l ->
  StronglySorted ranks_above l -> StronglySorted ranks_above (insert_desc x l).
Proof.
  intros Hx Hl Hs. induction Hs as [| y l Hs IH Hy]; cbn.
  - repeat constructor.
  - inversion Hl as [| ? ? Ny Nl]; subst.
    destruct (flt (score x) (score y)) eqn:E.
    + constructor; [now apply IH |].
      eapply Permutation_Forall; [symmetry; apply insert_desc_perm |].
      constructor; [| exact Hy].
      unfold ranks_above, fge. now apply flt_fle.
    + assert (Hxy : ranks_above x y)
        by (unfold ranks_above, fge; now apply not_flt_fle).
      constructor; [now constructor |].
      constructor; [exact Hxy |].
      eapply Forall_impl; [| exact Hy].
      intros a Hya. unfold ranks_above, fge in *.
      eapply fle_trans; eassumption.
Qed.

Lemma sort_sorted l :
  Forall (fun a => score a <> NaN) l ->
  StronglySorted ranks_above (sort_by_score_desc l).
Proof.
  induction 1 as [| x l Hx Hl IH]; cbn; [constructor |].
  apply insert_desc_sorted; [exact Hx | | exact IH].
  now apply sort_Forall.
Qed.

(** Stability: inserting [x] puts it in front of the analyses of equal
    score, so analyses of one score stay in their order. *)
Lemma insert_desc_with_score k x l :
  with_score k (insert_desc x l) = with_score k (x :: l).
Proof.
  induction l as [| y l IH]; [reflexivity |].
  cbn [insert_desc]. destruct (flt (score x) (score y)) eqn:E; [| reflexivity].
  unfold with_score in *. cbn [filter] in *.
  destruct (feq (score x) k) eqn:Ex.
  - rewrite (flt_not_feq _ _ _ E Ex). exact IH.
  - rewrite IH. reflexivity.
Qed.

Lemma sort_stable k l : with_score k (sort_by_score_desc l) = with_score k l.
Proof.
  induction l as [| x l IH]; [reflexivity |].
  cbn [sort_by_score_desc fold_right]. rewrite insert_desc_with_score.
  unfold with_score in *. cbn [filter]. fold (sort_by_score_desc l).
  now rewrite IH.
Qed.

End Sorting.

(** ** The scan loop *)

Section Scan.

Variable self : AbsoluteBestScanner.

Lemma scan_ticker_app (results : list Analysis) (t : string) :
  scan_ticker self results t = results ++ scan_ticker self [] t.
Proof.
  unfold scan_ticker.
  destruct (get_market_data self t) as [[d |] | e];
    cbn [bind]; rewrite ?app_nil_r; try reflexivity.
  destruct (empty d); cbn [negb]; rewrite ?app_nil_r; try reflexivity.
  destruct (_analyze_stock t d) as [a | e]; cbn [bind];
    rewrite ?app_nil_r; try reflexivity.
  destruct (fge (score a) (Fin 75)); rewrite ?app_nil_r; try reflexivity.
  destruct (_generate_trade_plan a); cbn [bind];
    rewrite ?app_nil_r; reflexivity.
Qed.

Lemma fold_scan_ticker (ts : list string) (results : list Analysis) :
  fold_left (scan_ticker self) ts results =
  results ++ flat_map (scan_ticker self []) ts.
Proof.
  revert results. induction ts as [| t ts IH]; intros results; cbn.
  - now rewrite app_nil_r.
  - rewrite IH, scan_ticker_app, <- app_assoc. reflexivity.
Qed.

Lemma collect_flat_map :
  collect self =
  flat_map (scan_ticker self []) (firstn 15 (priority_tickers self)).
Proof. unfold collect. now rewrite fold_scan_ticker. Qed.

(** A fetch that throws, returns [None] or returns an empty frame adds
    nothing. *)
Lemma scan_ticker_not_fetched (t : string) :
  fetched self t = false -> scan_ticker self [] t = [].
Proof.
  unfold fetched, scan_ticker.
  destruct (get_market_data self t) as [[d |] | e]; cbn [bind];
    try reflexivity.
  destruct (empty d); cbn [negb]; [reflexivity | discriminate].
Qed.

(** An iteration adds nothing, or the analysis of the fetched frame with
    its plan, which then qualifies. *)
Lemma scan_ticker_cases (t : string) :
  scan_ticker self [] t = [] \/
  exists d a plan,
    get_market_data self t = Ok (Some d) /\ empty d = false /\
    _analyze_stock t d = Ok a /\ qualifies a /\
    _generate_trade_plan a = Ok plan /\
    scan_ticker self [] t = [set_trade_plan a plan].
Proof.
  unfold scan_ticker.
  destruct (get_market_data self t) as [[d |] | e]; cbn [bind]; auto.
  destruct (empty d) eqn:He; cbn [negb]; auto.
  destruct (_analyze_stock t d) as [a | e] eqn:Ha; cbn [bind]; auto.
  destruct (fge (score a) (Fin 75)) eqn:Hq; auto.
  destruct (_generate_trade_plan a) as [plan | e] eqn:Hp; cbn [bind]; auto.
  right. exists d, a, plan. repeat split; auto.
Qed.

Lemma scan_ticker_qualifying (t : string) (d : DataFrame) (a : Analysis)
    (plan : TradePlan) :
  get_market_data self t = Ok (Some d) -> empty d = false ->
  _analyze_stock t d = Ok a -> qualifies a ->
  _generate_trade_plan a = Ok plan ->
  scan_ticker self [] t = [set_trade_plan a plan].
Proof.
  intros Hd He Ha Hq Hp. unfold scan_ticker.
  rewrite Hd. cbn [bind]. rewrite He. cbn [negb]. rewrite Ha. cbn [bind].
  unfold qualifies in Hq. rewrite Hq, Hp. reflexivity.
Qed.

Lemma collect_qualifies :
  Forall (fun a => qualifies a /\ trade_plan a <> None) (collect self).
Proof.
  rewrite collect_flat_map. apply Forall_forall. intros a Hin.
  apply in_flat_map in Hin. destruct Hin as [t [_ Hin]].
  destruct (scan_ticker_cases t)
    as [E | (d & a' & plan & _ & _ & _ & Hq & _ & E)];
    rewrite E in Hin; cbn in Hin; [contradiction |].
  destruct Hin as [<- | []]. split; [exact Hq | discriminate].
Qed.

Lemma collect_in (t : string) (d : DataFrame) (a : Analysis)
    (plan : TradePlan) :
  In t (firstn 15 (priority_tickers self)) ->
  get_market_data self t = Ok (Some d) -> empty d = false ->
  _analyze_stock t d = Ok a -> qualifies a ->
  _generate_trade_plan a = Ok plan ->
  In (set_trade_plan a plan) (collect self).
Proof.
  intros Hin Hd He Ha Hq Hp. rewrite collect_flat_map.
  apply in_flat_map. exists t. split; [exact Hin |].
  rewrite (scan_ticker_qualifying t d a plan Hd He Ha Hq Hp). now left.
Qed.

End Scan.

Lemma flat_map_skip {A B : Type} (f : A -> list B) (keep : A -> bool)
    (l : list A) :
  (forall x, keep x = false -> f x = []) ->
  flat_map f (filter keep l) = flat_map f l.
Proof.
  intros H. induction l as [| x l IH]; [reflexivity |].
  cbn. destruct (keep x) eqn:E; cbn; rewrite IH; [reflexivity |].
  now rewrite (H x E).
Qed.

Lemma collect_with_tickers (self : AbsoluteBestScanner) (ts : list string) :
  collect (with_tickers self ts) =
  flat_map (scan_ticker self []) (firstn 15 ts).
Proof. rewrite collect_flat_map. reflexivity. Qed.

Lemma collect_capped (self : AbsoluteBestScanner) :
  collect (with_tickers self (firstn 15 (priority_tickers self))) =
  collect self.
Proof.
  rewrite collect_with_tickers, collect_flat_map.
  rewrite firstn_firstn, Nat.min_id. reflexivity.
Qed.

Lemma collect_skips (self : AbsoluteBestScanner) :
  collect (with_tickers self
             (filter (fetched self) (firstn 15 (priority_tickers self)))) =
  collect self.
Proof.
  rewrite collect_with_tickers, collect_flat_map.
  set (ts := firstn 15 (priority_tickers self)).
  assert (L : (List.length (filter (fetched self) ts) <= 15)%nat).
  { etransitivity; [apply filter_length_le |].
    unfold ts. rewrite length_firstn. lia. }
  rewrite (firstn_all2 _ L).
  apply flat_map_skip, scan_ticker_not_fetched.
Qed.

(** Of the built-in watchlist the scan reads NVDA to SNOW; CRWD, NET,
    DDOG, SQ, SHOP and UBER are never fetched. *)
Lemma default_universe (engine : string -> result (option DataFrame)) :
  collect (__init__ engine) =
  flat_map (scan_ticker (__init__ engine) [])
    ["NVDA"; "AAPL"; "MSFT"; "GOOGL"; "AMZN"; "META"; "TSLA";
     "AMD"; "AVGO"; "TSM"; "INTC"; "QCOM"; "COIN"; "PLTR"; "SNOW"].
Proof. apply collect_flat_map. Qed.

(** ** Slices *)

Lemma slice_to_nonneg {A : Type} (l : list A) (n : Z) :
  (0 <= n)%Z -> slice_to l n = firstn (Z.to_nat n) l.
Proof.
  intros H. unfold slice_to.
  destruct (Z.leb_spec 0 n); [reflexivity | lia].
Qed.

Lemma slice_to_all {A : Type} (l : list A) (n : Z) :
  (Z.of_nat (List.length l) <= n)%Z -> slice_to l n = l.
Proof.
  intros H. rewrite slice_to_nonneg by lia. apply firstn_all2. lia.
Qed.

Lemma Forall_prefix {A : Type} (P : A -> Prop) (n : nat) (l : list A) :
  Forall P l -> Forall P (firstn n l).
Proof.
  intros H. revert n. induction H as [| x l Hx Hl IH]; intros [| n]; cbn;
    constructor; auto.
Qed.

Lemma StronglySorted_prefix {A : Type} (R : A -> A -> Prop) (n : nat)
    (l : list A) :
  StronglySorted R l -> StronglySorted R (firstn n l).
Proof.
  intros H. revert n. induction H as [| x l Hs IH Hx]; intros [| n]; cbn;
    constructor; auto using Forall_prefix.
Qed.

(** ** Properties of the scan *)

(** An analysis of a frame with data has the keys the plan reads. *)
Lemma analyze_has_plan (t : string) (d : DataFrame) (a : Analysis) :
  empty d = false -> _analyze_stock t d = Ok a ->
  exists plan, _generate_trade_plan a = Ok plan.
Proof.
  intros He. unfold _analyze_stock. rewrite He.
  destruct (if has_column d "Close" then _ else _) as [p | e];
    cbn [bind]; [| discriminate].
  destruct (_calculate_momentum d) as [m | e]; cbn [bind]; [| discriminate].
  destruct (_calculate_volume d) as [v | e]; cbn [bind]; [| discriminate].
  destruct (_calculate_trend d) as [tr | e]; cbn [bind]; [| discriminate].
  destruct (2 <=? len d)%nat.
  - destruct (getitem d "Close") as [cs | e]; cbn [bind]; [| discriminate].
    destruct (iloc_neg cs 1) as [l | e]; cbn [bind]; [| discriminate].
    destruct (iloc_neg cs 2) as [l2 | e]; cbn [bind]; [| discriminate].
    intros H. injection H as <-. eexists.
    erewrite plan_shape by reflexivity. reflexivity.
  - intros H. injection H as <-. eexists.
    erewrite plan_shape by reflexivity. reflexivity.
Qed.

Lemma collect_no_nan (self : AbsoluteBestScanner) :
  Forall (fun a => score a <> NaN) (collect self).
Proof.
  eapply Forall_impl; [| apply collect_qualifies].
  intros a [Hq _]. eapply fge_not_nan. exact Hq.
Qed.

(** C1 (as amended): the scan never fails on its arguments; for every
    watchlist and every integer [max_results] it returns a result: the
    first [max_results] ranked analyses when [max_results >= 0], hence
    the empty list for 0; the ranked list without its last
    [|max_results|] entries when negative; the empty list when the
    watchlist is empty. *)
Theorem scan_never_fails (self : AbsoluteBestScanner) (max_results : Z) :
  exists r, scan_best_opportunities self max_results = Ok r /\
    let ranked := sort_by_score_desc (collect self) in
    (priority_tickers self = [] -> r = []) /\
    (max_results = 0%Z -> r = []) /\
    ((0 <= max_results)%Z -> r = firstn (Z.to_nat max_results) ranked) /\
    ((max_results < 0)%Z ->
     r = firstn (List.length ranked - Z.to_nat (- max_results)) ranked).
Proof.
  eexists. split; [reflexivity |]. cbv zeta. repeat split.
  - intros H. unfold collect. rewrite H.
    cbn [firstn fold_left sort_by_score_desc fold_right].
    unfold slice_to. destruct (0 <=? max_results)%Z; apply firstn_nil.
  - intros ->. reflexivity.
  - intros H. now apply slice_to_nonneg.
  - intros H. unfold slice_to.
    destruct (Z.leb_spec 0 max_results); [lia | reflexivity].
Qed.

Lemma scan_never_fails_witness :
  scan_best_opportunities no_tickers 5 = Ok [] /\
  scan_best_opportunities five_qualifying 0 = Ok [].
Proof.
  split.
  - destruct (scan_never_fails no_tickers 5) as (r & H & E & _).
    rewrite H. f_equal. apply E. reflexivity.
  - destruct (scan_never_fails five_qualifying 0) as (r & H & _ & E & _).
    rewrite H. f_equal. apply E. reflexivity.
Defined.

(** C1 (as stated) fails: a scan over an empty watchlist returns the
    empty result instead of failing, and so does a scan with
    [max_results = 0]. *)
Lemma empty_universe_returns_empty :
  ~ ((exists e, scan_best_opportunities no_tickers 5 = Raise e) <->
     (priority_tickers no_tickers = [] \/ (5 <= 0)%Z)) /\
  ~ ((exists e, scan_best_opportunities five_qualifying 0 = Raise e) <->
     (priority_tickers five_qualifying = [] \/ (0 <= 0)%Z)).
Proof.
  split; intros [_ H].
  - destruct H as [e He]; [left; reflexivity | discriminate He].
  - destruct H as [e He]; [right; lia | discriminate He].
Qed.

(** C2: for a positive [max_results] the result holds only analyses of
    combined score at least 75, is in descending order of score with
    analyses of equal score in their encounter order, and has at most
    [max_results] entries; with 5 qualifying analyses and
    [max_results = 2] it has exactly 2 entries, the first ranking at or
    above the second. *)
Theorem scan_result_ranked (self : AbsoluteBestScanner) (max_results : Z) :
  (0 < max_results)%Z ->
  exists r, scan_best_opportunities self max_results = Ok r /\
    Forall qualifies r /\
    StronglySorted ranks_above r /\
    (List.length r <= Z.to_nat max_results)%nat /\
    (let ranked := sort_by_score_desc (collect self) in
     r = firstn (Z.to_nat max_results) ranked /\
     Permutation ranked (collect self) /\
     forall k, with_score k ranked = with_score k (collect self)) /\
    (List.length (collect self) = 5%nat -> max_results = 2%Z ->
     exists a b, r = [a; b] /\ ranks_above a b).
Proof.
  intros Hn. unfold scan_best_opportunities.
  rewrite slice_to_nonneg by lia.
  set (ranked := sort_by_score_desc (collect self)).
  assert (Hs : StronglySorted ranks_above ranked)
    by apply sort_sorted, collect_no_nan.
  eexists. split; [reflexivity |]. repeat split.
  - apply Forall_prefix, sort_Forall.
    eapply Forall_impl; [| apply collect_qualifies]. now intros a [Hq _].
  - now apply StronglySorted_prefix.
  - apply firstn_le_length.
  - apply sort_perm.
  - intros k. apply sort_stable.
  - intros H5 ->.
    assert (L : List.length ranked = 5%nat)
      by (unfold ranked; now rewrite (Permutation_length (sort_perm _))).
    destruct ranked as [| a [| b rest]]; try discriminate L.
    exists a, b. split; [reflexivity |].
    apply StronglySorted_inv in Hs. destruct Hs as [_ Ha].
    now inversion Ha.
Qed.

Lemma scan_result_ranked_witness :
  exists r, scan_best_opportunities five_qualifying 2 = Ok r /\
    List.map ticker r = ["AAPL"; "AMZN"] /\
    exists a b, r = [a; b] /\ ranks_above a b.
Proof.
  destruct (scan_result_ranked five_qualifying 2 ltac:(lia))
    as (r & H & _ & _ & _ & [E _] & P).
  exists r. split; [exact H |]. split.
  - rewrite E. vm_compute. reflexivity.
  - apply P; reflexivity.
Defined.

(** C3: a ticker whose fetch throws, returns [None] or returns an empty
    frame is skipped; the scan still returns, its result being that of a
    scan over the tickers that were fetched, and it holds the analysis of
    every fetched and qualifying ticker (all of them when [max_results]
    does not truncate); only the first 15 entries of the priority list
    are considered. *)
Theorem failed_fetches_are_skipped (self : AbsoluteBestScanner)
    (max_results : Z) :
  (forall t results,
     (exists e, get_market_data self t = Raise e) \/
     get_market_data self t = Ok None \/
     (exists d, get_market_data self t = Ok (Some d) /\ empty d = true) ->
     scan_ticker self results t = results) /\
  (exists r, scan_best_opportunities self max_results = Ok r /\
     scan_best_opportunities
       (with_tickers self
          (filter (fetched self) (firstn 15 (priority_tickers self))))
       max_results = Ok r /\
     scan_best_opportunities
       (with_tickers self (firstn 15 (priority_tickers self)))
       max_results = Ok r /\
     forall t d a,
       In t (firstn 15 (priority_tickers self)) ->
       get_market_data self t = Ok (Some d) -> empty d = false ->
       _analyze_stock t d = Ok a -> qualifies a ->
       exists plan,
         _generate_trade_plan a = Ok plan /\
         In (set_trade_plan a plan) (collect self) /\
         ((Z.of_nat (List.length (collect self)) <= max_results)%Z ->
          In (set_trade_plan a plan) r)).
Proof.
  split.
  - intros t results H. rewrite scan_ticker_app.
    rewrite scan_ticker_not_fetched; [apply app_nil_r |].
    unfold fetched. destruct H as [[e ->] | [-> | [d [-> ->]]]]; reflexivity.
  - eexists. split; [reflexivity |].
    unfold scan_best_opportunities.
    rewrite collect_skips, collect_capped.
    split; [reflexivity |]. split; [reflexivity |].
    intros t d a Hin Hd He Ha Hq.
    destruct (analyze_has_plan t d a He Ha) as [plan Hp].
    exists plan. split; [exact Hp |].
    pose proof (collect_in self t d a plan Hin Hd He Ha Hq Hp) as Hc.
    split; [exact Hc |].
    intros Hlen. rewrite slice_to_all.
    + eapply Permutation_in; [symmetry; apply sort_perm | exact Hc].
    + now rewrite (Permutation_length (sort_perm _)).
Qed.

Lemma failed_fetches_are_skipped_witness :
  scan_ticker one_bad_ticker [] "AAPL" = [] /\
  exists r, scan_best_opportunities one_bad_ticker 5 = Ok r /\
    List.map ticker r = ["MSFT"; "NVDA"] /\
    exists a plan,
      _analyze_stock "NVDA" rising = Ok a /\
      _generate_trade_plan a = Ok plan /\
      In (set_trade_plan a plan) r.
Proof.
  destruct (failed_fetches_are_skipped one_bad_ticker 5)
    as (Hskip & r & Hr & _ & _ & Hin).
  split.
  - apply Hskip. left. exists OtherError. reflexivity.
  - exists r. split; [exact Hr |]. split.
    + injection Hr as <-. vm_compute. reflexivity.
    + assert (Hn : (0 < len rising)%nat) by (unfold len; simpl; lia).
      destruct (analyze_nonempty "NVDA" rising eq_refl Hn)
        as (m & v & t & a & _ & _ & _ & _ & _ & _ & Ha & _).
      destruct (Hin "NVDA" rising a) as (plan & Hp & _ & Hall).
      * cbn. now left.
      * reflexivity.
      * reflexivity.
      * exact Ha.
      * revert Ha. vm_compute. intros Ha. injection Ha as <-. reflexivity.
      * exists a, plan. split; [exact Ha |]. split; [exact Hp |].
        apply Hall. vm_compute. discriminate.
Defined.

(** * Further properties of the scanner *)

(** ** Shape of an analysis *)

(** The label and the reported change for the last two closes. *)
Lemma analyze_shape (tk : string) (data : DataFrame) :
  has_column data "Close" = true -> (0 < len data)%nat ->
  let latest := Fin (nth (len data - 1) (closes data) 0) in
  let prev := Fin (nth (len data - 2) (closes data) 0) in
  let change := fmul (fdiv (fsub latest prev) prev) (Fin 100) in
  exists m v t,
    _calculate_momentum data = Ok (Fin m) /\
    _calculate_volume data = Ok (Fin v) /\
    _calculate_trend data = Ok (Fin t) /\
    _analyze_stock tk data =
    Ok (mkAnalysis tk (Some latest)
          (Some (if (2 <=? len data)%nat then change else Fin 0))
          (Some (if (2 <=? len data)%nat
                 then if fgt change (Fin 0) then "BULLISH" else "BEARISH"
                 else "NEUTRAL"))
          (Fin (m * 0.4 + v * 0.3 + t * 0.3))
          (Some (Fin m)) (Some (Fin v)) (Some (Fin t)) None).
Proof.
  intros Hc Hn latest prev change.
  destruct (momentum_total data Hc) as [m [Hm _]].
  destruct (volume_total data) as [v [Hv _]].
  destruct (trend_total data Hc) as [t [Ht _]].
  exists m, v, t. repeat split; try assumption.
  assert (He : empty data = false).
  { rewrite (empty_rows data Hc). unfold len in Hn.
    destruct (rows data); [simpl in Hn; lia | reflexivity]. }
  unfold _analyze_stock.
  rewrite He, Hc, Hm, Hv, Ht, (getitem_Close _ Hc). cbn [bind].
  rewrite (iloc_neg_ok (closes data) 1) by (rewrite closes_length; lia).
  cbn [bind]. rewrite closes_length. fold latest.
  destruct (Nat.leb_spec 2 (len data)) as [H2 | H2]; [| reflexivity].
  rewrite (iloc_neg_ok (closes data) 2) by (rewrite closes_length; lia).
  cbn [bind]. rewrite closes_length. reflexivity.
Qed.

(** X1: with two bars or more and a positive previous close, the analysis
    reports the latest close as price, labels the ticker BULLISH exactly
    when the latest close is above the previous one, and BEARISH
    otherwise, an unchanged close included. *)
Theorem trend_label_follows_last_move (tk : string) (data : DataFrame) :
  has_column data "Close" = true -> (2 <= len data)%nat ->
  let latest := nth (len data - 1) (closes data) 0 in
  let prev := nth (len data - 2) (closes data) 0 in
  0 < prev ->
  exists a, _analyze_stock tk data = Ok a /\
    ticker a = tk /\ price a = Some (Fin latest) /\
    (exists c, price_change a = Some (Fin c) /\ c == pct_change latest prev) /\
    (prev < latest -> trend a = Some "BULLISH") /\
    (latest <= prev -> trend a = Some "BEARISH").
Proof.
  intros Hc Hn latest prev Hp.
  destruct (analyze_shape tk data Hc ltac:(lia)) as (m & v & t & _ & _ & _ & Ha).
  fold latest prev in Ha. rewrite Ha.
  destruct (Nat.leb_spec 2 (len data)); [| lia].
  assert (Hd : fdiv (fsub (Fin latest) (Fin prev)) (Fin prev) =
               Fin ((latest + - prev) / prev)).
  { unfold fsub, fneg, fadd, fdiv.
    rewrite (proj2 (Qeq_bool_false prev 0)) by lra. reflexivity. }
  rewrite Hd. unfold fmul, fgt, flt.
  eexists. split; [reflexivity |]. cbn [ticker price price_change trend].
  assert (Hq : (latest + - prev) / prev * 100 ==
               (latest - prev) * (100 / prev)) by (field; lra).
  assert (Hpos : 0 < 100 / prev) by (apply Qlt_shift_div_l; lra).
  repeat split.
  - eexists. split; [reflexivity |]. unfold pct_change. reflexivity.
  - intros Hlt.
    assert (E : Qltb 0 ((latest + - prev) / prev * 100) = true).
    { apply Qltb_lt. rewrite Hq. apply Qmult_lt_0_compat; lra. }
    now rewrite E.
  - intros Hle.
    assert (E : Qltb 0 ((latest + - prev) / prev * 100) = false).
    { apply Qltb_ge. rewrite Hq.
      setoid_replace 0 with (0 * (100 / prev)) by ring.
      apply Qmult_le_compat_r; lra. }
    now rewrite E.
Qed.

Lemma trend_label_follows_last_move_witness :
  exists a, _analyze_stock "NVDA" rising = Ok a /\
    price a = Some (Fin 290) /\ trend a = Some "BULLISH".
Proof.
  assert (Hn : (2 <= len rising)%nat) by (unfold len; simpl; lia).
  destruct (trend_label_follows_last_move "NVDA" rising eq_refl Hn)
    as (a & Ha & _ & Hp & _ & Hb & _).
  - vm_compute. reflexivity.
  - exists a. split; [exact Ha |]. split.
    + rewrite Hp. reflexivity.
    + apply Hb. vm_compute. reflexivity.
Defined.

(** X2: a frame with a single bar is analysed without error, with or
    without a Close column: the price is that bar's close (100 without
    the column), the label is NEUTRAL, the change 0, every sub-score and
    the combined score 50; the plan built for it is SHORT. *)
Theorem single_bar_is_neutral (tk : string) (data : DataFrame) :
  len data = 1%nat -> columns data <> [] ->
  exists a plan,
    _analyze_stock tk data = Ok a /\
    price a = Some (Fin (if has_column data "Close"
                         then nth 0 (closes data) 0 else 100)) /\
    price_change a = Some (Fin 0) /\ trend a = Some "NEUTRAL" /\
    momentum_score a = Some (Fin 50) /\ volume_score a = Some (Fin 50) /\
    trend_score a = Some (Fin 50) /\
    (exists s, score a = Fin s /\ s == 50) /\
    _generate_trade_plan a = Ok plan /\ direction plan = "SHORT".
Proof.
  intros Hn Hcols. destruct data as [cols rs]. unfold len in Hn.
  cbn [rows columns] in *.
  destruct rs as [| b [| b' rs]]; try discriminate Hn.
  destruct cols as [| c cols]; [contradiction |].
  unfold _analyze_stock, empty, _calculate_momentum, _calculate_volume,
    _calculate_trend, len, closes.
  cbn [rows columns List.length Nat.ltb Nat.leb orb bind].
  destruct (has_column (mkFrame (c :: cols) [b]) "Close") eqn:Hc.
  - rewrite (getitem_Close _ Hc). cbn.
    eexists. eexists. repeat split; try reflexivity.
    eexists. split; [reflexivity | reflexivity].
  - cbn. eexists. eexists. repeat split; try reflexivity.
    eexists. split; [reflexivity | reflexivity].
Qed.

Lemma single_bar_is_neutral_witness :
  exists a plan,
    _analyze_stock "NVDA" (mkFrame ["Volume"] (flat_bars 1 37 1000)) = Ok a /\
    price a = Some (Fin 100) /\ trend a = Some "NEUTRAL" /\
    _generate_trade_plan a = Ok plan /\ direction plan = "SHORT".
Proof.
  destruct (single_bar_is_neutral "NVDA"
              (mkFrame ["Volume"] (flat_bars 1 37 1000)) eq_refl)
    as (a & plan & Ha & Hp & _ & Ht & _ & _ & _ & _ & Hg & Hd).
  - discriminate.
  - exists a, plan. repeat split; assumption.
Defined.

(** ** Bounds on the combined score *)

(** What an analysis that returned for a frame with data is made of. *)
Lemma analyze_ok_inv (tk : string) (data : DataFrame) (a : Analysis) :
  empty data = false -> _analyze_stock tk data = Ok a ->
  exists p m v t l,
    _calculate_momentum data = Ok m /\
    _calculate_volume data = Ok v /\
    _calculate_trend data = Ok t /\
    ticker a = tk /\ price a = Some p /\ trend a = Some l /\
    (l = "BULLISH" \/ l = "BEARISH" \/ l = "NEUTRAL") /\
    score a = fadd (fadd (fmul m (Fin 0.4)) (fmul v (Fin 0.3)))
                (fmul t (Fin 0.3)) /\
    trade_plan a = None.
Proof.
  intros He. unfold _analyze_stock. rewrite He.
  destruct (if has_column data "Close" then _ else _) as [p | e];
    cbn [bind]; [| discriminate].
  destruct (_calculate_momentum data) as [m | e]; cbn [bind]; [| discriminate].
  destruct (_calculate_volume data) as [v | e]; cbn [bind]; [| discriminate].
  destruct (_calculate_trend data) as [t | e]; cbn [bind]; [| discriminate].
  destruct (2 <=? len data)%nat.
  - destruct (getitem data "Close") as [cs | e]; cbn [bind]; [| discriminate].
    destruct (iloc_neg cs 1) as [c1 | e]; cbn [bind]; [| discriminate].
    destruct (iloc_neg cs 2) as [c2 | e]; cbn [bind]; [| discriminate].
    match goal with
    | |- context [if fgt ?x ?y then _ else _] => destruct (fgt x y)
    end; intros H; injection H as <-;
      [exists p, m, v, t, "BULLISH" | exists p, m, v, t, "BEARISH"];
      cbn; repeat split; auto.
  - intros H. injection H as <-.
    exists p, m, v, t, "NEUTRAL". cbn. repeat split; auto.
Qed.

(** The volume score is one of 40, 50, 60, 75, 90, and at most 50 when
    there are fewer than 20 bars. *)
Lemma volume_values (data : DataFrame) :
  exists v, _calculate_volume data = Ok (Fin v) /\ 40 <= v <= 90 /\
            ((len data < 20)%nat -> v <= 50).
Proof.
  destruct (Nat.lt_ge_cases (len data) 10) as [H | H].
  - exists 50. split; [apply volume_neutral; now left |]. split; intros; lra.
  - destruct (has_column data "Volume") eqn:Hv.
    + rewrite (volume_long data H Hv).
      destruct (Nat.leb_spec 20 (len data)) as [H20 | H20].
      * repeat match goal with
        | |- context [if ?c then _ else _] => destruct c
        end; eexists; (split; [reflexivity |]); split; (lra || lia).
      * set (recent := average (tail 5 (volumes data))).
        destruct (Qeq_bool recent 0) eqn:E.
        -- exists 50. split; [reflexivity |]. split; intros; lra.
        -- apply Qeq_bool_false in E.
           assert (R : recent / recent == 1) by (now field).
           rewrite (Qltb_comp 2 _ 2 1), (Qltb_comp 1.5 _ 1.5 1),
             (Qltb_comp 1 _ 1 1) by (reflexivity || exact R).
           cbn. exists 40. split; [reflexivity |]. split; intros; lra.
    + exists 50. split; [apply volume_neutral; now right |].
      split; intros; lra.
Qed.

Lemma trend_values (data : DataFrame) (t : float) :
  _calculate_trend data = Ok t ->
  exists q, t = Fin q /\ 15 <= q <= 85 /\ ((len data < 20)%nat -> q = 50).
Proof.
  unfold _calculate_trend.
  destruct (Nat.ltb_spec (len data) 20) as [H | H].
  - intros E. injection E as <-. exists 50. repeat split; auto; lra.
  - destruct (getitem data "Close") as [cs | e]; cbn [bind]; [| discriminate].
    destruct (iloc_neg cs 1) as [c | e]; cbn [bind]; [| discriminate].
    repeat match goal with
    | |- context [if ?c then _ else _] => destruct c
    end; intros E; injection E as <-; eexists;
      (split; [reflexivity |]); split; (lra || lia).
Qed.

(** The combined score of a frame with data, as a number. *)
Lemma analyze_score_bounds (tk : string) (data : DataFrame) (a : Analysis) :
  empty data = false -> _analyze_stock tk data = Ok a ->
  exists m v t,
    score a = Fin (m * 0.4 + v * 0.3 + t * 0.3) /\
    0 <= m <= 100 /\ 40 <= v <= 90 /\ 15 <= t <= 85 /\
    ((len data < 20)%nat -> v <= 50 /\ t = 50).
Proof.
  intros He Ha.
  destruct (analyze_ok_inv tk data a He Ha)
    as (p & m & v & t & l & Hm & Hv & Ht & _ & _ & _ & _ & Hs & _).
  destruct (momentum_range data m Hm) as (qm & -> & Rm).
  destruct (volume_values data) as (qv & Hv' & Rv & Sv).
  rewrite Hv' in Hv. injection Hv as <-.
  destruct (trend_values data t Ht) as (qt & -> & Rt & St).
  exists qm, qv, qt. repeat split; try lra; try exact Hs; auto.
Qed.

(** X3: the combined score of a frame with data lies between 16.5 and
    92.5, and is at most 70 when the frame has fewer than 20 bars. *)
Theorem combined_score_range (tk : string) (data : DataFrame) (a : Analysis) :
  empty data = false -> _analyze_stock tk data = Ok a ->
  exists s, score a = Fin s /\ 16.5 <= s <= 92.5 /\
            ((len data < 20)%nat -> s <= 70).
Proof.
  intros He Ha.
  destruct (analyze_score_bounds tk data a He Ha)
    as (m & v & t & Hs & Rm & Rv & Rt & Hshort).
  exists (m * 0.4 + v * 0.3 + t * 0.3). split; [exact Hs |].
  split; [lra |]. intros H. destruct (Hshort H) as [Hv ->]. lra.
Qed.

Lemma combined_score_range_witness :
  exists a s, _analyze_stock "NVDA" dip = Ok a /\ score a = Fin s /\
              16.5 <= s <= 92.5 /\ s <= 70.
Proof.
  assert (Hn : (0 < len dip)%nat) by (unfold len; simpl; lia).
  destruct (analyze_nonempty "NVDA" dip eq_refl Hn)
    as (m & v & t & a & _ & _ & _ & _ & _ & _ & Ha & _).
  destruct (combined_score_range "NVDA" dip a eq_refl Ha) as (s & Hs & R & S).
  exists a, s. repeat split; try assumption; try apply R.
  apply S. unfold len. simpl. lia.
Defined.

(** X4: a ticker whose frame has fewer than 20 bars is never included:
    the iteration leaves the results as they were. *)
Theorem short_history_never_included (self : AbsoluteBestScanner)
    (results : list Analysis) (t : string) (data : DataFrame) :
  get_market_data self t = Ok (Some data) -> (len data < 20)%nat ->
  scan_ticker self results t = results.
Proof.
  intros Hd Hn. rewrite scan_ticker_app.
  destruct (scan_ticker_cases self t)
    as [E | (d & a & plan & Hd' & He & Ha & Hq & _ & _)].
  - rewrite E. apply app_nil_r.
  - rewrite Hd in Hd'. injection Hd' as <-.
    destruct (analyze_score_bounds t data a He Ha)
      as (m & v & tr & Hs & Rm & Rv & Rt & Hshort).
    destruct (Hshort Hn) as [Hv ->].
    unfold qualifies, fge, fle in Hq. rewrite Hs in Hq.
    apply Qle_bool_iff in Hq. lra.
Qed.

Lemma short_history_never_included_witness :
  scan_ticker (mkScanner (fun _ => Ok (Some dip)) ["NVDA"]) [] "NVDA" = [].
Proof.
  apply (short_history_never_included
           (mkScanner (fun _ => Ok (Some dip)) ["NVDA"]) [] "NVDA" dip).
  - reflexivity.
  - unfold len. simpl. lia.
Defined.

(** ** Where the results come from *)

Lemma collect_origin (self : AbsoluteBestScanner) (x : Analysis) :
  In x (collect self) ->
  exists t d a plan,
    In t (firstn 15 (priority_tickers self)) /\
    get_market_data self t = Ok (Some d) /\ empty d = false /\
    _analyze_stock t d = Ok a /\ qualifies a /\
    _generate_trade_plan a = Ok plan /\ x = set_trade_plan a plan.
Proof.
  rewrite collect_flat_map. intros Hin.
  apply in_flat_map in Hin. destruct Hin as [t [Ht Hin]].
  destruct (scan_ticker_cases self t)
    as [E | (d & a & plan & Hd & He & Ha & Hq & Hp & E)];
    rewrite E in Hin; cbn in Hin; [contradiction |].
  destruct Hin as [<- | []]. exists t, d, a, plan. repeat split; assumption.
Qed.

Lemma slice_to_incl {A : Type} (l : list A) (n : Z) (x : A) :
  In x (slice_to l n) -> In x l.
Proof.
  assert (F : forall k, In x (firstn k l) -> In x l).
  { intros k H. rewrite <- (firstn_skipn k l). apply in_or_app. now left. }
  unfold slice_to. destruct (0 <=? n)%Z; apply F.
Qed.

Lemma scan_result_in_collect (self : AbsoluteBestScanner) (n : Z)
    (r : list Analysis) (x : Analysis) :
  scan_best_opportunities self n = Ok r -> In x r -> In x (collect self).
Proof.
  unfold scan_best_opportunities. intros H Hin. injection H as <-.
  apply slice_to_incl in Hin.
  eapply Permutation_in; [apply sort_perm | exact Hin].
Qed.

Lemma scan_result_origin (self : AbsoluteBestScanner) (n : Z)
    (r : list Analysis) (x : Analysis) :
  scan_best_opportunities self n = Ok r -> In x r ->
  exists t d a plan,
    In t (firstn 15 (priority_tickers self)) /\
    get_market_data self t = Ok (Some d) /\ empty d = false /\
    (20 <= len d)%nat /\
    _analyze_stock t d = Ok a /\ _generate_trade_plan a = Ok plan /\
    x = set_trade_plan a plan /\ ticker x = t /\
    exists s, score x = Fin s /\ 75 <= s <= 92.5.
Proof.
  intros Hr Hin.
  destruct (collect_origin self x (scan_result_in_collect self n r x Hr Hin))
    as (t & d & a & plan & Ht & Hd & He & Ha & Hq & Hp & ->).
  exists t, d, a, plan.
  destruct (analyze_score_bounds t d a He Ha)
    as (m & v & tr & Hs & Rm & Rv & Rt & Hshort).
  destruct (analyze_ok_inv t d a He Ha)
    as (p & _ & _ & _ & _ & _ & _ & _ & Htk & _).
  assert (Hge : 75 <= m * 0.4 + v * 0.3 + tr * 0.3).
  { unfold qualifies, fge, fle in Hq. rewrite Hs in Hq.
    now apply Qle_bool_iff in Hq. }
  repeat split; try assumption.
  - destruct (Nat.lt_ge_cases (len d) 20) as [H | H]; [| exact H].
    destruct (Hshort H) as [Hv ->]. lra.
  - exists (m * 0.4 + v * 0.3 + tr * 0.3). cbn [score set_trade_plan].
    split; [exact Hs | lra].
Qed.

(** X5: every analysis of a scan result is the analysis of the frame
    fetched for one of the first 15 priority tickers, carries that ticker
    as its symbol, comes from a frame of at least 20 bars, and has a
    combined score between 75 and 92.5. *)
Theorem scan_result_provenance (self : AbsoluteBestScanner) (n : Z)
    (r : list Analysis) (x : Analysis) :
  scan_best_opportunities self n = Ok r -> In x r ->
  exists t d a plan,
    In t (firstn 15 (priority_tickers self)) /\
    get_market_data self t = Ok (Some d) /\ (20 <= len d)%nat /\
    _analyze_stock t d = Ok a /\ _generate_trade_plan a = Ok plan /\
    x = set_trade_plan a plan /\ ticker x = t /\
    exists s, score x = Fin s /\ 75 <= s <= 92.5.
Proof.
  intros Hr Hin.
  destruct (scan_result_origin self n r x Hr Hin)
    as (t & d & a & plan & H1 & H2 & _ & H3 & H4 & H5 & H6 & H7 & H8).
  exists t, d, a, plan. repeat split; assumption.
Qed.

Lemma scan_result_provenance_witness :
  exists r x, scan_best_opportunities five_qualifying 1 = Ok r /\ In x r /\
    ticker x = "AAPL" /\ exists s, score x = Fin s /\ 75 <= s <= 92.5.
Proof.
  pose (r := slice_to (sort_by_score_desc (collect five_qualifying)) 1).
  assert (Hr : scan_best_opportunities five_qualifying 1 = Ok r)
    by reflexivity.
  assert (Hne : exists x, In x r /\ ticker x = "AAPL").
  { vm_compute. eexists. split; [left; reflexivity | reflexivity]. }
  destruct Hne as (x & Hin & Htk). exists r, x.
  split; [exact Hr |]. split; [exact Hin |]. split; [exact Htk |].
  destruct (scan_result_provenance five_qualifying 1 r x Hr Hin)
    as (t & d & a & plan & _ & _ & _ & _ & _ & _ & _ & Hs).
  exact Hs.
Defined.

(** ** The plans of the results *)

(** Two bars or more cannot be analysed without a Close column. *)
Lemma analyze_needs_close (tk : string) (data : DataFrame) (a : Analysis) :
  empty data = false -> (2 <= len data)%nat ->
  _analyze_stock tk data = Ok a -> has_column data "Close" = true.
Proof.
  intros He Hn. unfold _analyze_stock. rewrite He.
  - destruct (has_column data "Close") eqn:Hc; [reflexivity |].
    cbn [bind].
    destruct (_calculate_momentum data); cbn [bind]; [| discriminate].
    destruct (_calculate_volume data); cbn [bind]; [| discriminate].
    destruct (_calculate_trend data); cbn [bind]; [| discriminate].
    destruct (Nat.leb_spec 2 (len data)); [| lia].
    unfold getitem. rewrite Hc. discriminate.
Qed.

Lemma plan_ratio_positive (a : Analysis) (p : Q) (t : string)
    (plan : TradePlan) :
  price a = Some (Fin p) -> trend a = Some t -> 0 < p ->
  _generate_trade_plan a = Ok plan -> float_eq (risk_reward plan) (Fin 3).
Proof.
  intros Hp Ht Hpos. rewrite (plan_shape_fin a p t Hp Ht). cbv zeta.
  set (risk := Qabs (p - level_stop t p)).
  set (reward := Qabs (level_target t p - p)).
  intros H. injection H as <-. cbn [risk_reward].
  assert (Ha : Qabs p == p) by (apply Qabs_pos; lra).
  assert (Hrisk : risk == 0.07 * p).
  { unfold risk, level_stop.
    destruct (String.eqb t "BULLISH");
      [rewrite (proj1 (risk_is_7_percent p))
      | rewrite (proj2 (risk_is_7_percent p))];
      rewrite Ha; reflexivity. }
  assert (Hreward : reward == 0.21 * p).
  { unfold reward, level_target.
    destruct (String.eqb t "BULLISH");
      [rewrite (proj1 (reward_is_21_percent p))
      | rewrite (proj2 (reward_is_21_percent p))];
      rewrite Ha; reflexivity. }
  rewrite (proj2 (Qeq_bool_false risk 0)) by lra. cbn [round2 float_eq].
  assert (E : reward / risk == 3) by (rewrite Hrisk, Hreward; field; lra).
  rewrite (Qround2_comp _ _ E). vm_compute. reflexivity.
Qed.

Lemma analyze_long_history (tk : string) (data : DataFrame) (a : Analysis) :
  has_column data "Close" = true -> (2 <= len data)%nat ->
  _analyze_stock tk data = Ok a ->
  price a = Some (Fin (nth (len data - 1) (closes data) 0)) /\
  (trend a = Some "BULLISH" \/ trend a = Some "BEARISH").
Proof.
  intros Hc Hn Ha.
  destruct (analyze_shape tk data Hc ltac:(lia)) as (m & v & t & _ & _ & _ & Ha').
  revert Ha'. destruct (Nat.leb_spec 2 (len data)); [| lia].
  rewrite Ha. intros E. injection E as ->. cbn [price trend].
  split; [reflexivity |].
  match goal with |- context [if ?c then _ else _] => destruct c end; auto.
Qed.

(** X6: every analysis of a scan result carries a trade plan whose
    confidence is HIGH (position 7-10%) or VERY HIGH (position 10-15%),
    never MODERATE, whose timeframe is "3-10 days", whose direction is
    LONG when the label is BULLISH and SHORT when it is BEARISH (the
    label is never NEUTRAL), and whose risk-reward is 3 when the latest
    close is positive. *)
Theorem scan_result_plans (self : AbsoluteBestScanner) (n : Z)
    (r : list Analysis) (x : Analysis) :
  scan_best_opportunities self n = Ok r -> In x r ->
  exists plan,
    trade_plan x = Some plan /\
    timeframe plan = "3-10 days" /\
    (confidence plan = "VERY HIGH" /\ position_size plan = "10-15%" \/
     confidence plan = "HIGH" /\ position_size plan = "7-10%") /\
    (trend x = Some "BULLISH" /\ direction plan = "LONG" \/
     trend x = Some "BEARISH" /\ direction plan = "SHORT") /\
    exists p, price x = Some (Fin p) /\
              (0 < p -> float_eq (risk_reward plan) (Fin 3)).
Proof.
  intros Hr Hin.
  destruct (scan_result_origin self n r x Hr Hin)
    as (t & d & a & plan & _ & _ & He & Hlen & Ha & Hp & -> & _ & s & Hs & Rs).
  exists plan. cbn [trade_plan set_trade_plan price trend score] in *.
  assert (Hc : has_column d "Close" = true)
    by (apply (analyze_needs_close t d a); [exact He | lia | exact Ha]).
  destruct (analyze_long_history t d a Hc ltac:(lia) Ha) as [Hprice Hlabel].
  assert (Hl : exists l, trend a = Some l /\ (l = "BULLISH" \/ l = "BEARISH"))
    by (destruct Hlabel as [E | E]; eexists; split; eauto).
  destruct Hl as (l & Htrend & Hl).
  pose proof (plan_shape a _ l Hprice Htrend) as Hshape.
  cbv zeta in Hshape. pose proof Hp as Hp'. rewrite Hshape in Hp'.
  split; [reflexivity |].
  injection Hp' as <-.
  cbn [timeframe confidence position_size direction].
  split; [reflexivity |]. split.
  - rewrite Hs. unfold fge, fle.
    destruct (Qle_bool 85 s); [now left |].
    assert (E : Qle_bool 75 s = true) by (apply Qle_bool_iff; lra).
    rewrite E. now right.
  - split.
    + rewrite Htrend. destruct Hl as [-> | ->]; cbn; auto.
    + eexists. split; [exact Hprice |]. intros Hpos.
      exact (plan_ratio_positive a _ l _ Hprice Htrend Hpos Hp).
Qed.

Lemma scan_result_plans_witness :
  exists r x plan, scan_best_opportunities five_qualifying 1 = Ok r /\
    In x r /\ trade_plan x = Some plan /\
    (confidence plan = "VERY HIGH" \/ confidence plan = "HIGH") /\
    timeframe plan = "3-10 days".
Proof.
  pose (r := slice_to (sort_by_score_desc (collect five_qualifying)) 1).
  assert (Hr : scan_best_opportunities five_qualifying 1 = Ok r)
    by reflexivity.
  assert (Hne : exists x, In x r).
  { vm_compute. eexists. left. reflexivity. }
  destruct Hne as (x & Hin).
  destruct (scan_result_plans five_qualifying 1 r x Hr Hin)
    as (plan & Hp & Ht & Hc & _).
  exists r, x, plan. repeat split; try assumption.
  destruct Hc as [[Hc _] | [Hc _]]; auto.
Defined.

(** ** Size of the result *)

Lemma scan_ticker_length (self : AbsoluteBestScanner) (t : string) :
  (List.length (scan_ticker self [] t) <= 1)%nat.
Proof.
  destruct (scan_ticker_cases self t)
    as [E | (d & a & plan & _ & _ & _ & _ & _ & E)]; rewrite E; cbn; lia.
Qed.

Lemma scan_ticker_symbol (self : AbsoluteBestScanner) (t : string) :
  map ticker (scan_ticker self [] t) = [] \/
  map ticker (scan_ticker self [] t) = [t].
Proof.
  destruct (scan_ticker_cases self t)
    as [E | (d & a & plan & _ & He & Ha & _ & _ & E)]; rewrite E;
    [now left | right].
  destruct (analyze_ok_inv t d a He Ha)
    as (p & _ & _ & _ & _ & _ & _ & _ & Htk & _).
  cbn. now rewrite Htk.
Qed.

(** The symbols collected by the loop are picked from the watchlist, in
    its order, each at most as often as it is listed. *)
Lemma collected_symbols (self : AbsoluteBestScanner) (ts : list string) :
  exists keep : list bool,
    List.length keep = List.length ts /\
    map ticker (flat_map (scan_ticker self []) ts) =
    map fst (filter snd (combine ts keep)).
Proof.
  induction ts as [| t ts (keep & Hl & IH)].
  - exists []. split; reflexivity.
  - cbn [flat_map]. rewrite map_app, IH.
    destruct (scan_ticker_symbol self t) as [E | E]; rewrite E.
    + exists (false :: keep). split; [cbn; now rewrite Hl | reflexivity].
    + exists (true :: keep). split; [cbn; now rewrite Hl | reflexivity].
Qed.

Lemma picked_length {A : Type} (l : list A) (keep : list bool) :
  (List.length (filter snd (combine l keep)) <= List.length l)%nat.
Proof.
  etransitivity; [apply filter_length_le |].
  rewrite length_combine. lia.
Qed.

Lemma picked_incl {A : Type} (l : list A) (keep : list bool) (x : A) :
  In x (map fst (filter snd (combine l keep))) -> In x l.
Proof.
  intros H. apply in_map_iff in H. destruct H as ([y b] & <- & H).
  apply filter_In in H. destruct H as [H _].
  now apply in_combine_l in H.
Qed.

Lemma picked_NoDup {A : Type} (l : list A) (keep : list bool) :
  NoDup l -> NoDup (map fst (filter snd (combine l keep))).
Proof.
  intros H. revert keep. induction H as [| x l Hx Hl IH]; intros keep.
  - constructor.
  - destruct keep as [| b keep]; [constructor |]. cbn [combine filter snd].
    destruct b; cbn [map fst]; [| apply IH].
    constructor; [| apply IH].
    intros Hin. apply Hx. eapply picked_incl. exact Hin.
Qed.

(** X7: whatever [max_results] is, a scan returns at most 15 analyses,
    and at most [max_results] of them when it is not negative; their
    symbols are among the first 15 priority tickers, and no symbol is
    reported twice when the watchlist lists none twice. *)
Theorem scan_result_size (self : AbsoluteBestScanner) (n : Z)
    (r : list Analysis) :
  scan_best_opportunities self n = Ok r ->
  (List.length r <= 15)%nat /\
  ((0 <= n)%Z -> (List.length r <= Z.to_nat n)%nat) /\
  incl (map ticker r) (firstn 15 (priority_tickers self)) /\
  (NoDup (priority_tickers self) -> NoDup (map ticker r)).
Proof.
  intros Hr. unfold scan_best_opportunities in Hr. injection Hr as <-.
  set (ts := firstn 15 (priority_tickers self)).
  destruct (collected_symbols self ts) as (keep & Hk & Hsym).
  fold ts in Hsym. rewrite <- collect_flat_map in Hsym.
  assert (Hperm : Permutation (map ticker (sort_by_score_desc (collect self)))
                    (map fst (filter snd (combine ts keep)))).
  { rewrite <- Hsym. apply Permutation_map, sort_perm. }
  assert (Hlen : (List.length (sort_by_score_desc (collect self)) <= 15)%nat).
  { rewrite <- (length_map ticker), (Permutation_length Hperm), length_map.
    etransitivity; [apply picked_length |].
    unfold ts. rewrite length_firstn. lia. }
  assert (Hsub : forall k,
            exists rest, sort_by_score_desc (collect self) =
                         firstn k (sort_by_score_desc (collect self)) ++ rest).
  { intros k. exists (skipn k (sort_by_score_desc (collect self))).
    symmetry. apply firstn_skipn. }
  assert (Hslice : exists rest, sort_by_score_desc (collect self) =
                     slice_to (sort_by_score_desc (collect self)) n ++ rest).
  { unfold slice_to. destruct (0 <=? n)%Z; apply Hsub. }
  destruct Hslice as [rest Hrest].
  set (res := slice_to (sort_by_score_desc (collect self)) n) in *.
  repeat split.
  - rewrite Hrest, length_app in Hlen. lia.
  - intros Hn. unfold res. rewrite slice_to_nonneg by exact Hn.
    apply firstn_le_length.
  - intros s Hs. apply (picked_incl ts keep).
    eapply Permutation_in; [exact Hperm |].
    rewrite Hrest, map_app. apply in_or_app. now left.
  - intros Hnd.
    assert (Hnd' : NoDup (map ticker (sort_by_score_desc (collect self)))).
    { eapply Permutation_NoDup; [symmetry; exact Hperm |].
      apply picked_NoDup. unfold ts.
      rewrite <- (firstn_skipn 15 (priority_tickers self)) in Hnd.
      now apply NoDup_app_remove_r in Hnd. }
    rewrite Hrest, map_app in Hnd'. now apply NoDup_app_remove_r in Hnd'.
Qed.

Lemma scan_result_size_witness :
  exists r, scan_best_opportunities (__init__ (fun _ => Ok (Some surging))) 100
            = Ok r /\
    (List.length r <= 15)%nat /\ NoDup (map ticker r).
Proof.
  eexists. split; [reflexivity |].
  destruct (scan_result_size (__init__ (fun _ => Ok (Some surging))) 100 _
              eq_refl) as (H15 & _ & _ & Hnd).
  split; [exact H15 |]. apply Hnd.
  vm_compute.
  repeat (constructor; [cbn; intuition discriminate |]). constructor.
Defined.

Lemma collect_length (self : AbsoluteBestScanner) :
  (List.length (collect self) <= 15)%nat.
Proof.
  rewrite collect_flat_map.
  destruct (collected_symbols self (firstn 15 (priority_tickers self)))
    as (keep & _ & Hsym).
  rewrite <- (length_map ticker), Hsym, length_map.
  etransitivity; [apply picked_length |]. rewrite length_firstn. lia.
Qed.

(** X8: asking for more results never changes the earlier ones: for
    0 <= n <= m the result for [n] is the first [n] entries of the result
    for [m]; and from 15 on nothing is cut: the result is the whole
    ranking, a rearrangement of the collected analyses. *)
Theorem scan_prefix (self : AbsoluteBestScanner) (n m : Z) :
  (0 <= n <= m)%Z ->
  exists rn rm,
    scan_best_opportunities self n = Ok rn /\
    scan_best_opportunities self m = Ok rm /\
    rn = firstn (Z.to_nat n) rm /\
    ((15 <= m)%Z ->
     rm = sort_by_score_desc (collect self) /\
     Permutation rm (collect self)).
Proof.
  intros Hnm. unfold scan_best_opportunities.
  rewrite !slice_to_nonneg by lia.
  eexists. eexists. split; [reflexivity |]. split; [reflexivity |]. split.
  - rewrite firstn_firstn. f_equal. lia.
  - intros H15.
    assert (E : firstn (Z.to_nat m) (sort_by_score_desc (collect self)) =
                sort_by_score_desc (collect self)).
    { apply firstn_all2.
      rewrite (Permutation_length (sort_perm _)).
      pose proof (collect_length self). lia. }
    rewrite E. split; [reflexivity | apply sort_perm].
Qed.

Lemma scan_prefix_witness :
  exists rn rm,
    scan_best_opportunities five_qualifying 2 = Ok rn /\
    scan_best_opportunities five_qualifying 20 = Ok rm /\
    rn = firstn 2 rm /\ map ticker rm = ["AAPL"; "AMZN"; "NVDA"; "MSFT"; "META"].
Proof.
  destruct (scan_prefix five_qualifying 2 20 ltac:(lia))
    as (rn & rm & Hn & Hm & Hp & Hall).
  exists rn, rm. repeat split; try assumption.
  destruct (Hall ltac:(lia)) as [-> _]. vm_compute. reflexivity.
Defined.

(** ** Rounded price levels *)

Lemma round_half_even_error (y : Q) :
  - (1 # 2) <= inject_Z (round_half_even y) - y <= 1 # 2.
Proof.
  unfold round_half_even.
  pose proof (Qfloor_le y) as Hlo. pose proof (Qlt_floor y) as Hhi.
  rewrite inject_Z_plus in Hhi.
  assert (I1 : inject_Z 1 == 1) by reflexivity.
  destruct (Qltb (y - inject_Z (Qfloor y)) 0.5) eqn:E1.
  - apply Qltb_lt in E1. lra.
  - apply Qltb_ge in E1.
    destruct (Qltb 0.5 (y - inject_Z (Qfloor y))) eqn:E2.
    + rewrite inject_Z_plus. lra.
    + apply Qltb_ge in E2.
      destruct (Z.even (Qfloor y)); [lra | rewrite inject_Z_plus; lra].
Qed.

Lemma Qround2_error (x : Q) : - 0.005 <= Qround2 x - x <= 0.005.
Proof.
  unfold Qround2. pose proof (round_half_even_error (x * 100)) as H.
  set (z := inject_Z (round_half_even (x * 100))) in *.
  assert (E : z / 100 == z * 0.01) by (field).
  rewrite E. lra.
Qed.

(** X9: the plan's entry, stop and target are within half a cent of the
    price and of the unrounded levels; for a price of at least 0.15 the
    rounded levels are strictly ordered: stop < entry < target for a
    BULLISH label, target < entry < stop otherwise. *)
Theorem plan_levels_ordered (a : Analysis) (p : Q) (t : string) :
  price a = Some (Fin p) -> trend a = Some t ->
  exists plan e s g,
    _generate_trade_plan a = Ok plan /\
    entry plan = Fin e /\ stop_loss plan = Fin s /\ target plan = Fin g /\
    - 0.005 <= e - p <= 0.005 /\
    - 0.005 <= s - level_stop t p <= 0.005 /\
    - 0.005 <= g - level_target t p <= 0.005 /\
    (0.15 <= p -> t = "BULLISH" -> s < e < g) /\
    (0.15 <= p -> t <> "BULLISH" -> g < e < s).
Proof.
  intros Hp Ht. rewrite (plan_shape_fin a p t Hp Ht).
  eexists. eexists. eexists. eexists.
  split; [reflexivity |]. cbn [entry stop_loss target].
  split; [reflexivity |]. split; [reflexivity |]. split; [reflexivity |].
  pose proof (Qround2_error p) as He.
  pose proof (Qround2_error (level_stop t p)) as Hs.
  pose proof (Qround2_error (level_target t p)) as Hg.
  split; [exact He |]. split; [exact Hs |]. split; [exact Hg |].
  unfold level_stop, level_target in *.
  split; intros Hmin Hl.
  - subst t. cbn [String.eqb Ascii.eqb Bool.eqb] in *. cbn in Hs, Hg. lra.
  - destruct (String.eqb_spec t "BULLISH"); [contradiction |]. lra.
Qed.

Lemma plan_levels_ordered_witness :
  exists plan e s g,
    _generate_trade_plan (analysis_of 123.456 "BULLISH" 80) = Ok plan /\
    entry plan = Fin e /\ stop_loss plan = Fin s /\ target plan = Fin g /\
    s < e < g.
Proof.
  destruct (plan_levels_ordered (analysis_of 123.456 "BULLISH" 80) 123.456
              "BULLISH" eq_refl eq_refl)
    as (plan & e & s & g & H & He & Hs & Hg & _ & _ & _ & Hord & _).
  exists plan, e, s, g. repeat split; try assumption; apply Hord;
    (reflexivity || (vm_compute; discriminate)).
Defined.

(** Below that price the rounding can merge levels: at 0.05 the stop of a
    LONG plan equals its entry while the reported risk-reward stays 3. *)
Lemma penny_stop_equals_entry :
  exists plan,
    _generate_trade_plan (analysis_of 0.05 "BULLISH" 80) = Ok plan /\
    float_eq (entry plan) (stop_loss plan) /\
    float_eq (risk_reward plan) (Fin 3).
Proof. eexists. split; [reflexivity |]. vm_compute. split; reflexivity. Qed.

(** ** Shape of the momentum score *)

Lemma momentum_clamped (data : DataFrame) :
  (10 <= len data)%nat -> has_column data "Close" = true ->
  let latest := nth (len data - 1) (closes data) 0 in
  let prior := nth (len data - 5) (closes data) 0 in
  ~ prior == 0 ->
  exists m, _calculate_momentum data = Ok (Fin m) /\
            m == clamp_0_100 (50 + 2 * pct_change latest prior).
Proof.
  intros Hn Hc latest prior Hp.
  rewrite (momentum_long data Hn Hc). fold latest prior.
  unfold fsub, fneg, fadd, fdiv.
  rewrite (proj2 (Qeq_bool_false prior 0) Hp). unfold fmul, fadd.
  destruct (clamp_fin (50 + (latest + - prior) / prior * 100 * 2))
    as [q [Hq Hc']].
  exists q. split; [now rewrite Hq |].
  rewrite Hc'. unfold clamp_0_100, pct_change.
  assert (E : 50 + (latest + - prior) / prior * 100 * 2 ==
              50 + 2 * ((latest - prior) / prior * 100)) by (field; exact Hp).
  rewrite E. reflexivity.
Qed.

Lemma clamp_0_100_cases (x : Q) :
  (x <= 0 /\ clamp_0_100 x == 0) \/
  (0 <= x <= 100 /\ clamp_0_100 x == x) \/
  (100 <= x /\ clamp_0_100 x == 100).
Proof.
  unfold clamp_0_100.
  destruct (Qlt_le_dec x 0) as [H0 | H0].
  - left. split; [lra |].
    rewrite (Q.min_r 100 x) by lra. rewrite Q.max_l by lra. reflexivity.
  - destruct (Qlt_le_dec 100 x) as [H1 | H1].
    + right. right. split; [lra |].
      rewrite (Q.min_l 100 x) by lra. rewrite Q.max_r by lra. reflexivity.
    + right. left. split; [lra |].
      rewrite (Q.min_r 100 x) by lra. rewrite Q.max_r by lra. reflexivity.
Qed.

Lemma clamp_0_100_mono (x y : Q) : x <= y -> clamp_0_100 x <= clamp_0_100 y.
Proof.
  intros H.
  destruct (clamp_0_100_cases x) as [[? Ex] | [[? Ex] | [? Ex]]];
    destruct (clamp_0_100_cases y) as [[? Ey] | [[? Ey] | [? Ey]]];
    rewrite Ex, Ey; lra.
Qed.

Lemma pct_change_scaled (latest prior : Q) :
  0 < prior -> pct_change latest prior == (latest - prior) * (100 / prior).
Proof. intros H. unfold pct_change. field. lra. Qed.

(** X10: with a positive reference close (the fifth bar from the end),
    the momentum score is 50 when the latest close equals it, 100 from a
    rise of 25 percent on, 0 from a fall of 25 percent on, and strictly
    between 0 and 100 in between. *)
Theorem momentum_saturates (data : DataFrame) :
  (10 <= len data)%nat -> has_column data "Close" = true ->
  let latest := nth (len data - 1) (closes data) 0 in
  let prior := nth (len data - 5) (closes data) 0 in
  0 < prior ->
  exists m, _calculate_momentum data = Ok (Fin m) /\
    (latest == prior -> m == 50) /\
    (1.25 * prior <= latest -> m == 100) /\
    (latest <= 0.75 * prior -> m == 0) /\
    (0.75 * prior < latest < 1.25 * prior -> 0 < m < 100).
Proof.
  intros Hn Hc latest prior Hp.
  destruct (momentum_clamped data Hn Hc) as [m [Hm Em]];
    [fold prior; lra |].
  fold latest prior in Em. exists m. split; [exact Hm |].
  pose proof (pct_change_scaled latest prior Hp) as Es.
  assert (Hk : 0 < 100 / prior) by (apply Qlt_shift_div_l; lra).
  assert (Hi : prior * (100 / prior) == 100) by (field; lra).
  set (k := 100 / prior) in *.
  set (c := pct_change latest prior) in *.
  assert (Hlo : latest <= 0.75 * prior -> c <= - 25).
  { intros H. assert (L : (latest - prior) * k <= (- 0.25 * prior) * k)
      by (apply Qmult_le_compat_r; lra).
    assert (R : (- 0.25 * prior) * k == - 0.25 * (prior * k)) by ring.
    lra. }
  assert (Hhi : 1.25 * prior <= latest -> 25 <= c).
  { intros H. assert (L : (0.25 * prior) * k <= (latest - prior) * k)
      by (apply Qmult_le_compat_r; lra).
    assert (R : (0.25 * prior) * k == 0.25 * (prior * k)) by ring.
    lra. }
  assert (Hlo' : 0.75 * prior < latest -> - 25 < c).
  { intros H. assert (L : (- 0.25 * prior) * k < (latest - prior) * k)
      by (apply Qmult_lt_compat_r; lra).
    assert (R : (- 0.25 * prior) * k == - 0.25 * (prior * k)) by ring.
    lra. }
  assert (Hhi' : latest < 1.25 * prior -> c < 25).
  { intros H. assert (L : (latest - prior) * k < (0.25 * prior) * k)
      by (apply Qmult_lt_compat_r; lra).
    assert (R : (0.25 * prior) * k == 0.25 * (prior * k)) by ring.
    lra. }
  assert (Hmid : latest == prior -> c == 0).
  { intros H. rewrite Es.
    assert (Z : latest - prior == 0) by lra.
    assert (R : (latest - prior) * k == (latest - prior) * k) by reflexivity.
    transitivity (0 * k); [| ring].
    apply Qmult_comp; [exact Z | reflexivity]. }
  destruct (clamp_0_100_cases (50 + 2 * c)) as [[B C] | [[B C] | [B C]]];
    repeat split; intros; try lra;
    repeat match goal with
    | H : _ /\ _ |- _ => destruct H
    end;
    try (specialize (Hmid ltac:(assumption)));
    try (specialize (Hlo ltac:(assumption)));
    try (specialize (Hhi ltac:(assumption)));
    try (specialize (Hlo' ltac:(assumption)));
    try (specialize (Hhi' ltac:(assumption))); lra.
Qed.

Lemma momentum_saturates_witness :
  exists m, _calculate_momentum surging = Ok (Fin m) /\ 0 < m < 100.
Proof.
  assert (Hn : (10 <= len surging)%nat) by (unfold len; simpl; lia).
  destruct (momentum_saturates surging Hn eq_refl) as (m & Hm & _ & _ & _ & H).
  - vm_compute. reflexivity.
  - exists m. split; [exact Hm |]. apply H.
    vm_compute. split; reflexivity.
Defined.

(** X11: the momentum score never decreases when the latest close is
    higher: for two frames with the same positive reference close, the
    frame with the higher latest close has the higher or equal score. *)
Theorem momentum_monotone (d1 d2 : DataFrame) :
  (10 <= len d1)%nat -> (10 <= len d2)%nat ->
  has_column d1 "Close" = true -> has_column d2 "Close" = true ->
  let latest1 := nth (len d1 - 1) (closes d1) 0 in
  let latest2 := nth (len d2 - 1) (closes d2) 0 in
  let prior1 := nth (len d1 - 5) (closes d1) 0 in
  let prior2 := nth (len d2 - 5) (closes d2) 0 in
  prior1 == prior2 -> 0 < prior1 -> latest1 <= latest2 ->
  exists m1 m2,
    _calculate_momentum d1 = Ok (Fin m1) /\
    _calculate_momentum d2 = Ok (Fin m2) /\ m1 <= m2.
Proof.
  intros Hn1 Hn2 Hc1 Hc2 latest1 latest2 prior1 prior2 Ep Hp Hl.
  destruct (momentum_clamped d1 Hn1 Hc1) as [m1 [Hm1 E1]];
    [fold prior1; lra |].
  destruct (momentum_clamped d2 Hn2 Hc2) as [m2 [Hm2 E2]];
    [fold prior2; lra |].
  fold latest1 prior1 in E1. fold latest2 prior2 in E2.
  exists m1, m2. split; [exact Hm1 |]. split; [exact Hm2 |].
  assert (Hp2 : 0 < prior2) by lra.
  pose proof (pct_change_scaled latest1 prior1 Hp) as S1.
  pose proof (pct_change_scaled latest2 prior2 Hp2) as S2.
  assert (Hk : 0 < 100 / prior1) by (apply Qlt_shift_div_l; lra).
  assert (Ek : 100 / prior2 == 100 / prior1).
  { apply Qmult_comp; [reflexivity | now apply Qinv_comp]. }
  assert (L : (latest1 - prior1) * (100 / prior1) <=
              (latest2 - prior1) * (100 / prior1))
    by (apply Qmult_le_compat_r; lra).
  assert (R : (latest2 - prior2) * (100 / prior2) ==
              (latest2 - prior1) * (100 / prior1)).
  { apply Qmult_comp; [lra | exact Ek]. }
  assert (M : clamp_0_100 (50 + 2 * pct_change latest1 prior1) <=
              clamp_0_100 (50 + 2 * pct_change latest2 prior2))
    by (apply clamp_0_100_mono; lra).
  lra.
Qed.

Lemma momentum_monotone_witness :
  exists m1 m2,
    _calculate_momentum (mkFrame ohlcv (flat_bars 10 100 1000)) = Ok (Fin m1) /\
    _calculate_momentum (mkFrame ohlcv (flat_bars 9 100 1000 ++ [mkBar 110 1000]))
      = Ok (Fin m2) /\ m1 <= m2.
Proof.
  apply (momentum_monotone (mkFrame ohlcv (flat_bars 10 100 1000))
           (mkFrame ohlcv (flat_bars 9 100 1000 ++ [mkBar 110 1000])));
    try reflexivity; try (unfold len; simpl; lia);
    vm_compute; (reflexivity || discriminate).
Defined.

(** * Subscription plans *)

Section SubscriptionProperties.

Import Subscription.

(** The plan ids are the four of [tier_order], compared exactly. *)
Lemma get_plan_known (stripe : bool) (tier : string) :
  (In tier tier_order /\ exists plan, get_plan (new_manager stripe) tier = Some plan) \/
  (~ In tier tier_order /\ get_plan (new_manager stripe) tier = None).
Proof.
  unfold get_plan, new_manager, plans, dict_get, tier_order.
  destruct (String.eqb_spec tier "free") as [-> | N1];
    [left; split; [cbn; auto | eauto] |].
  destruct (String.eqb_spec tier "basic") as [-> | N2];
    [left; split; [cbn; auto | eauto] |].
  destruct (String.eqb_spec tier "premium") as [-> | N3];
    [left; split; [cbn; auto | eauto] |].
  destruct (String.eqb_spec tier "ultimate") as [-> | N4];
    [left; split; [cbn; auto | eauto] |].
  right. split; [| reflexivity].
  cbn. intros [H | [H | [H | [H | []]]]]; congruence.
Qed.

Lemma tier_cases (tier : string) :
  In tier tier_order ->
  tier = "free" \/ tier = "basic" \/ tier = "premium" \/ tier = "ultimate".
Proof. cbn. intuition. Qed.

(** The limit that gates a feature name, if any. *)
Lemma feature_map_cases (feature : string) :
  dict_get feature_map feature = None \/
  exists key, dict_get feature_map feature = Some key /\
    (key = "real_time_data" \/ key = "ai_predictions" \/
     key = "whale_detection" \/ key = "advanced_indicators" \/
     key = "automated_trading" \/ key = "api_access").
Proof.
  unfold feature_map, dict_get.
  repeat match goal with
  | |- context [String.eqb feature ?k] =>
      destruct (String.eqb feature k); [right; eexists; split; [reflexivity |]; tauto |]
  end.
  now left.
Qed.

(** X13: a tier other than free, basic, premium or ultimate (ids are
    compared exactly) is refused every feature; a known tier is allowed
    every feature name outside the six gated ones; the answer is always a
    boolean. *)
Theorem feature_access_defaults (stripe : bool) (tier feature : string) :
  (exists b, can_user_access_feature (new_manager stripe) tier feature = VBool b) /\
  (~ In tier tier_order ->
   can_user_access_feature (new_manager stripe) tier feature = VBool false) /\
  (In tier tier_order -> dict_get feature_map feature = None ->
   can_user_access_feature (new_manager stripe) tier feature = VBool true).
Proof.
  unfold can_user_access_feature.
  destruct (get_plan_known stripe tier) as [[Hin [plan Hp]] | [Hn Hp]]; rewrite Hp.
  - split; [| split; [contradiction |]].
    + destruct (feature_map_cases feature) as [-> | (key & -> & Hk)];
        [eauto |].
      apply tier_cases in Hin.
      destruct Hin as [-> | [-> | [-> | ->]]]; injection Hp as <-;
        destruct Hk as [-> | [-> | [-> | [-> | [-> | ->]]]]]; cbn; eauto.
    + intros _ ->. reflexivity.
  - split; [eauto |]. split; [reflexivity | contradiction].
Qed.

Lemma feature_access_defaults_witness :
  can_user_access_feature (new_manager true) "Premium" "whale_detection" = VBool false /\
  can_user_access_feature (new_manager true) "free" "market_narratives" = VBool true.
Proof.
  split.
  - apply (proj1 (proj2 (feature_access_defaults true "Premium" "whale_detection"))).
    cbn. intros [H | [H | [H | [H | []]]]]; discriminate.
  - apply (proj2 (proj2 (feature_access_defaults true "free" "market_narratives")));
      [cbn; auto | reflexivity].
Defined.

(** X14: access only widens along free, basic, premium, ultimate: a
    feature that a tier may use may be used by every later tier; the free
    tier may use none of the six gated features and the ultimate tier may
    use every feature. *)
Theorem feature_access_monotone (stripe : bool) (feature : string) :
  (forall i j t1 t2,
     (i <= j)%nat ->
     nth_error tier_order i = Some t1 -> nth_error tier_order j = Some t2 ->
     can_user_access_feature (new_manager stripe) t1 feature = VBool true ->
     can_user_access_feature (new_manager stripe) t2 feature = VBool true) /\
  (dict_get feature_map feature <> None ->
   can_user_access_feature (new_manager stripe) "free" feature = VBool false) /\
  can_user_access_feature (new_manager stripe) "ultimate" feature = VBool true.
Proof.
  unfold can_user_access_feature.
  destruct (feature_map_cases feature) as [E | (key & E & Hk)]; rewrite E.
  - split; [| split; [congruence | reflexivity]].
    intros i j t1 t2 _ _ H2 _.
    do 4 (destruct j as [| j]; [injection H2 as <-; reflexivity |]).
    destruct j; discriminate H2.
  - split; [| split].
    + intros i j t1 t2 Hij H1 H2.
      do 4 (destruct i as [| i];
            [injection H1 as <-;
             do 4 (destruct j as [| j];
                   [injection H2 as <-; try lia;
                    destruct Hk as [-> | [-> | [-> | [-> | [-> | ->]]]]];
                    cbn; congruence |]);
             destruct j; discriminate H2 |]).
      destruct i; discriminate H1.
    + intros _. destruct Hk as [-> | [-> | [-> | [-> | [-> | ->]]]]];
        reflexivity.
    + destruct Hk as [-> | [-> | [-> | [-> | [-> | ->]]]]]; reflexivity.
Qed.

Lemma feature_access_monotone_witness :
  can_user_access_feature (new_manager true) "ultimate" "whale_detection" = VBool true.
Proof.
  apply (proj1 (feature_access_monotone true "whale_detection")
           2%nat 3%nat "premium" "ultimate");
    (lia || reflexivity).
Defined.

(** The recommendation for a known tier: the tier after it when a usage
    figure reaches 80 percent of its limit and there is a tier after it. *)
Lemma recommendation_shape (stripe : bool) (tier : string) (usage : dict Z)
    (i : nat) (plan : Plan) :
  nth_error tier_order i = Some tier ->
  get_plan (new_manager stripe) tier = Some plan ->
  exists alerts scans calls,
    dict_get (limits plan) "max_alerts" = Some (VInt alerts) /\
    dict_get (limits plan) "daily_scans" = Some (VInt scans) /\
    dict_get (limits plan) "api_calls_per_day" = Some (VInt calls) /\
    get_upgrade_recommendation (new_manager stripe) tier usage =
    if Qle_bool (inject_Z alerts * 0.8) (usage_of usage "alerts_used")
       || Qle_bool (inject_Z scans * 0.8) (usage_of usage "scans_used")
       || Qle_bool (inject_Z calls * 0.8) (usage_of usage "api_calls_used")
    then Ok (nth (S i) tier_order "none") else Ok "none".
Proof.
  intros Hi Hp.
  do 4 (destruct i as [| i];
        [injection Hi as <-; unfold get_upgrade_recommendation;
         rewrite Hp; revert Hp;
         cbn [get_plan new_manager plans dict_get String.eqb Ascii.eqb
              Bool.eqb];
         intros Hp; injection Hp as <-;
         unfold free_plan, basic_plan, premium_plan, ultimate_plan, mk_limits;
         cbn [limits dict_item dict_get String.eqb Ascii.eqb Bool.eqb bind
              number];
         eexists; eexists; eexists;
         split; [reflexivity |]; split; [reflexivity |];
         split; [reflexivity |];
         destruct (_ || _); reflexivity |]).
  destruct i; discriminate Hi.
Qed.

Lemma tier_index_unique (i j : nat) (tier : string) :
  nth_error tier_order i = Some tier -> nth_error tier_order j = Some tier ->
  i = j.
Proof.
  intros Hi Hj.
  do 4 (destruct i as [| i];
        [injection Hi as <-;
         do 4 (destruct j as [| j];
               [first [reflexivity | discriminate Hj] |]);
         destruct j; discriminate Hj |]).
  destruct i; discriminate Hi.
Qed.

(** X15: the upgrade recommendation never fails.  It is "none" for an
    unknown tier and for the ultimate tier; for any other tier it is the
    next tier of free, basic, premium, ultimate when the alerts, scans or
    API calls used reach 80 percent of the tier's limit, and "none"
    otherwise. *)
Theorem upgrade_recommendation (stripe : bool) (tier : string)
    (usage : dict Z) :
  exists r,
    get_upgrade_recommendation (new_manager stripe) tier usage = Ok r /\
    (~ In tier tier_order \/ tier = "ultimate" -> r = "none") /\
    (forall i plan alerts scans calls,
       nth_error tier_order i = Some tier ->
       get_plan (new_manager stripe) tier = Some plan ->
       dict_get (limits plan) "max_alerts" = Some (VInt alerts) ->
       dict_get (limits plan) "daily_scans" = Some (VInt scans) ->
       dict_get (limits plan) "api_calls_per_day" = Some (VInt calls) ->
       let busy :=
         0.8 * inject_Z alerts <= usage_of usage "alerts_used" \/
         0.8 * inject_Z scans <= usage_of usage "scans_used" \/
         0.8 * inject_Z calls <= usage_of usage "api_calls_used" in
       (busy -> r = nth (S i) tier_order "none") /\
       (~ busy -> r = "none")).
Proof.
  destruct (get_plan_known stripe tier) as [[Hin [plan Hp]] | [Hn Hp]].
  - destruct (In_nth_error _ _ Hin) as [i Hi].
    destruct (recommendation_shape stripe tier usage i plan Hi Hp)
      as (alerts & scans & calls & Ha & Hs & Hc & ->).
    set (ua := usage_of usage "alerts_used").
    set (us := usage_of usage "scans_used").
    set (uc := usage_of usage "api_calls_used").
    assert (Hb : Qle_bool (inject_Z alerts * 0.8) ua
                 || Qle_bool (inject_Z scans * 0.8) us
                 || Qle_bool (inject_Z calls * 0.8) uc = true <->
                 (0.8 * inject_Z alerts <= ua \/ 0.8 * inject_Z scans <= us \/
                  0.8 * inject_Z calls <= uc)).
    { rewrite !orb_true_iff, !Qle_bool_iff.
      split; intros [[H | H] | H] || intros [H | [H | H]];
        try (left; left; lra); try (left; right; lra); try (right; lra);
        try (left; lra); try (right; left; lra); try (right; right; lra). }
    destruct (_ || _) eqn:E.
    + exists (nth (S i) tier_order "none"). split; [reflexivity |]. split.
      * intros [Hn | ->]; [contradiction |].
        rewrite (tier_index_unique i 3 "ultimate" Hi eq_refl). reflexivity.
      * intros i' plan' a' s' c' Hi' Hp' Ha' Hs' Hc'.
        rewrite (tier_index_unique i' i tier Hi' Hi). cbv zeta.
        split; [reflexivity |]. intros Hnot. exfalso. apply Hnot.
        rewrite Hp in Hp'. injection Hp' as <-.
        rewrite Ha in Ha'. rewrite Hs in Hs'. rewrite Hc in Hc'.
        injection Ha' as <-. injection Hs' as <-. injection Hc' as <-.
        now apply Hb.
    + exists "none". split; [reflexivity |]. split; [reflexivity |].
      intros i' plan' a' s' c' Hi' Hp' Ha' Hs' Hc'. cbv zeta.
      split; [| reflexivity]. intros Hbusy. exfalso.
      rewrite Hp in Hp'. injection Hp' as <-.
      rewrite Ha in Ha'. rewrite Hs in Hs'. rewrite Hc in Hc'.
      injection Ha' as <-. injection Hs' as <-. injection Hc' as <-.
      apply Hb in Hbusy. congruence.
  - exists "none". unfold get_upgrade_recommendation. rewrite Hp.
    split; [reflexivity |]. split; [reflexivity |].
    intros i plan a s c _ Hp'. unfold get_plan in *. congruence.
Qed.

Lemma upgrade_recommendation_witness :
  get_upgrade_recommendation (new_manager true) "free" [("scans_used", 3%Z)]
  = Ok "basic" /\
  get_upgrade_recommendation (new_manager true) "ultimate"
    [("scans_used", 5000%Z)] = Ok "none".
Proof.
  split.
  - destruct (upgrade_recommendation true "free" [("scans_used", 3%Z)])
      as (r & Hr & _ & H).
    rewrite Hr. f_equal.
    destruct (H 0%nat free_plan 5%Z 3%Z 100%Z eq_refl eq_refl eq_refl eq_refl
                eq_refl) as [Hb _].
    apply Hb. right. left. vm_compute. discriminate.
  - destruct (upgrade_recommendation true "ultimate" [("scans_used", 5000%Z)])
      as (r & Hr & H & _).
    rewrite Hr. f_equal. apply H. now right.
Defined.

Lemma max0_nonneg (x : Q) : 0 <= max0 x.
Proof.
  unfold max0. destruct (Qltb 0 x) eqn:E; [apply Qltb_lt in E |]; lra.
Qed.

(** X16: the reported savings are never negative.  With an unknown plan
    they are 0 and no feature list is given; for one and the same plan
    there is no new feature and the savings are 0; for two different
    known plans every feature of the target counts as new and both
    savings are strictly positive, for downgrades too. *)
Theorem savings_between_plans (stripe : bool) (t1 t2 : string) :
  let s := calculate_savings (new_manager stripe) t1 t2 in
  0 <= monthly_savings s /\ 0 <= yearly_savings s /\
  (~ In t1 tier_order \/ ~ In t2 tier_order -> s = mkSavings 0 0 None) /\
  (In t1 tier_order -> t1 = t2 ->
   new_features s = Some [] /\
   monthly_savings s == 0 /\ yearly_savings s == 0) /\
  (In t1 tier_order -> In t2 tier_order -> t1 <> t2 ->
   exists plan new,
     get_plan (new_manager stripe) t2 = Some plan /\
     new_features s = Some new /\ Permutation new (features plan) /\
     0 < monthly_savings s /\ 0 < yearly_savings s).
Proof.
  cbv zeta.
  assert (Hnone : ~ In t1 tier_order \/ ~ In t2 tier_order ->
                  calculate_savings (new_manager stripe) t1 t2 =
                  mkSavings 0 0 None).
  { intros [H | H]; unfold calculate_savings.
    - destruct (get_plan_known stripe t1) as [[? _] | [_ ->]];
        [contradiction | reflexivity].
    - destruct (get_plan_known stripe t2) as [[? _] | [_ ->]];
        [contradiction |].
      now destruct (get_plan (new_manager stripe) t1). }
  split; [| split; [| split; [exact Hnone | split]]].
  - unfold calculate_savings.
    destruct (get_plan _ t1); [destruct (get_plan _ t2) |];
      cbn [monthly_savings]; try apply max0_nonneg; lra.
  - unfold calculate_savings.
    destruct (get_plan _ t1); [destruct (get_plan _ t2) |];
      cbn [yearly_savings]; try apply max0_nonneg; lra.
  - intros H1 <-. apply tier_cases in H1.
    destruct H1 as [-> | [-> | [-> | ->]]]; vm_compute;
      repeat split; reflexivity.
  - intros H1 H2 Hne. apply tier_cases in H1. apply tier_cases in H2.
    destruct H1 as [-> | [-> | [-> | ->]]];
      destruct H2 as [-> | [-> | [-> | ->]]];
      try contradiction;
      eexists; eexists;
      (split; [reflexivity |]); (split; [reflexivity |]);
      (split; [vm_compute; apply Permutation_refl |]);
      vm_compute; split; reflexivity.
Qed.

Lemma savings_between_plans_witness :
  exists new, new_features (calculate_savings (new_manager true) "free" "basic")
              = Some new /\
    List.length new = 7%nat /\
    monthly_savings (calculate_savings (new_manager true) "free" "basic")
    == 110.01.
Proof.
  destruct (savings_between_plans true "free" "basic")
    as (_ & _ & _ & _ & H).
  destruct H as (plan & new & _ & Hn & _ & _ & _).
  - cbn; auto.
  - cbn; auto.
  - discriminate.
  - exists new. split; [exact Hn |].
    revert Hn. vm_compute. intros Hn. injection Hn as <-.
    split; reflexivity.
Defined.

(** X17: the plan information echoes the tier id and carries the plan's
    name, prices, features and limits for the four known tiers, and is
    empty for any other tier; the label shown for such a tier is "Free",
    although that tier, unlike the free tier, is refused every feature. *)
Theorem unknown_tier_shows_free (stripe : bool) (tier : string) :
  (In tier tier_order ->
   exists plan info,
     get_plan (new_manager stripe) tier = Some plan /\
     get_user_plan_info (new_manager stripe) tier = Some info /\
     info_tier info = tier /\ info_name info = name plan /\
     info_limits info = limits plan /\
     current_plan_label (new_manager stripe) tier = name plan) /\
  (~ In tier tier_order ->
   get_user_plan_info (new_manager stripe) tier = None /\
   current_plan_label (new_manager stripe) tier = "Free" /\
   forall feature,
     can_user_access_feature (new_manager stripe) tier feature = VBool false).
Proof.
  unfold current_plan_label, get_user_plan_info, can_user_access_feature.
  destruct (get_plan_known stripe tier) as [[Hin [plan Hp]] | [Hn Hp]];
    rewrite Hp.
  - split; [| contradiction]. intros _.
    eexists. eexists. repeat split; reflexivity.
  - split; [contradiction |]. intros _. repeat split.
Qed.

Lemma unknown_tier_shows_free_witness :
  current_plan_label (new_manager true) "PREMIUM" = "Free" /\
  can_user_access_feature (new_manager true) "PREMIUM" "anything" = VBool false /\
  current_plan_label (new_manager true) "premium" = "Premium".
Proof.
  assert (Hn : ~ In "PREMIUM" tier_order)
    by (cbn; intros [H | [H | [H | [H | []]]]]; discriminate).
  destruct (proj2 (unknown_tier_shows_free true "PREMIUM") Hn) as (_ & Hl & Hf).
  split; [exact Hl |]. split; [apply Hf |].
  destruct (proj1 (unknown_tier_shows_free true "premium"))
    as (plan & info & Hp & _ & _ & _ & _ & Hlabel).
  - cbn. auto.
  - rewrite Hlabel. injection Hp as <-. reflexivity.
Defined.

End SubscriptionProperties.

(** * The two halves of the 20-bar window *)

Lemma Qsum_app (a b : list Q) : Qsum (a ++ b) == Qsum a + Qsum b.
Proof.
  unfold Qsum. induction a as [| x a IH]; cbn [app fold_right]; [ring |].
  rewrite IH. ring.
Qed.

Lemma tail_split (k j : nat) (s : list Q) :
  (k <= j <= List.length s)%nat -> tail j s = earlier k j s ++ tail k s.
Proof.
  intros H. unfold earlier, tail.
  rewrite <- (firstn_skipn (j - k) (skipn (List.length s - j) s)) at 1.
  f_equal. rewrite skipn_skipn. f_equal. lia.
Qed.

Lemma average_tail (k : nat) (s : list Q) :
  (k <= List.length s)%nat ->
  average (tail k s) = Qsum (tail k s) / inject_Z (Z.of_nat k).
Proof.
  intros H. unfold average. rewrite tail_length.
  replace (Nat.min k (List.length s)) with k by lia. reflexivity.
Qed.

Lemma Qsum_tail_split (k j : nat) (s : list Q) :
  (k <= j <= List.length s)%nat ->
  Qsum (tail j s) == Qsum (earlier k j s) + Qsum (tail k s).
Proof. intros H. rewrite (tail_split k j s H). apply Qsum_app. Qed.

Lemma trend_decades (data : DataFrame) :
  (20 <= len data)%nat -> has_column data "Close" = true ->
  let latest := nth (len data - 1) (closes data) 0 in
  let last10 := Qsum (tail 10 (closes data)) / 10 in
  let prev10 := Qsum (earlier 10 20 (closes data)) / 10 in
  (_calculate_trend data = Ok (Fin 85) <->
   last10 < latest /\ prev10 < last10) /\
  (_calculate_trend data = Ok (Fin 15) <->
   latest < last10 /\ last10 < prev10).
Proof.
  intros Hn Hc latest last10 prev10.
  rewrite (trend_long data Hn Hc). fold latest.
  rewrite !average_tail by (rewrite closes_length; lia).
  change (inject_Z (Z.of_nat 10)) with 10.
  change (inject_Z (Z.of_nat 20)) with 20.
  fold last10.
  pose proof (Qsum_tail_split 10 20 (closes data)
                ltac:(rewrite closes_length; lia)) as Hsplit.
  set (total := Qsum (tail 20 (closes data))) in *.
  assert (E10 : last10 * 10 == Qsum (tail 10 (closes data)))
    by (unfold last10; field).
  assert (P10 : prev10 * 10 == Qsum (earlier 10 20 (closes data)))
    by (unfold prev10; field).
  assert (E20 : total / 20 == (prev10 + last10) / 2).
  { transitivity ((prev10 * 10 + last10 * 10) / 20); [| field].
    apply Qmult_comp; [lra | reflexivity]. }
  rewrite (Qltb_comp (total / 20) last10 _ last10 E20 (Qeq_refl _)),
    (Qltb_comp last10 (total / 20) last10 _ (Qeq_refl _) E20).
  assert (U : Qltb ((prev10 + last10) / 2) last10 = true <-> prev10 < last10).
  { rewrite Qltb_lt. split; intros H; [| apply Qlt_shift_div_r; lra].
    assert (F : (prev10 + last10) / 2 * 2 == prev10 + last10) by field.
    lra. }
  assert (D : Qltb last10 ((prev10 + last10) / 2) = true <-> last10 < prev10).
  { rewrite Qltb_lt. split; intros H; [| apply Qlt_shift_div_l; lra].
    assert (F : (prev10 + last10) / 2 * 2 == prev10 + last10) by field.
    lra. }
  destruct (Qltb last10 latest) eqn:A; destruct (Qltb latest last10) eqn:B;
    destruct (Qltb ((prev10 + last10) / 2) last10) eqn:C;
    destruct (Qltb last10 ((prev10 + last10) / 2)) eqn:F;
    rewrite ?Qltb_lt, ?Qltb_ge in *; cbn [andb];
    try (exfalso; lra);
    (split; split; intros H; try discriminate H; try reflexivity;
     try (exfalso; destruct H; lra);
     try (split; tauto || lra)).
Qed.

(** ** Steadily rising and falling closes *)

Section OrderedWindows.

Variable R : Q -> Q -> Prop.

Lemma sorted_app_cross (a b : list Q) :
  StronglySorted R (a ++ b) -> forall x y, In x a -> In y b -> R x y.
Proof.
  induction a as [| z a IH]; cbn; intros Hs x y Hx Hy; [contradiction |].
  apply StronglySorted_inv in Hs. destruct Hs as [Hs Hz].
  destruct Hx as [<- | Hx]; [| now apply IH].
  rewrite Forall_forall in Hz. apply Hz, in_or_app. now right.
Qed.

Lemma sorted_app_r (a b : list Q) :
  StronglySorted R (a ++ b) -> StronglySorted R b.
Proof.
  induction a as [| z a IH]; cbn; intros Hs; [exact Hs |].
  apply StronglySorted_inv in Hs. now apply IH.
Qed.

(** In a sorted list every entry but the last is related to the last. *)
Lemma sorted_last (l : list Q) (x : Q) :
  StronglySorted R (l ++ [x]) -> Forall (fun y => R y x) l.
Proof.
  intros Hs. apply Forall_forall. intros y Hy.
  apply (sorted_app_cross l [x] Hs); [exact Hy | now left].
Qed.

End OrderedWindows.

Lemma Qsum_below (l : list Q) (c : Q) :
  l <> [] -> Forall (fun x => x < c) l ->
  Qsum l < inject_Z (Z.of_nat (List.length l)) * c.
Proof.
  intros Hne H. induction H as [| x l Hx Hl IH]; [contradiction |].
  change (Qsum (x :: l)) with (x + Qsum l).
  rewrite length_cons, Nat2Z.inj_succ, <- Z.add_1_r, inject_Z_plus.
  change (inject_Z 1) with 1.
  destruct l as [| y l].
  - change (Qsum []) with 0.
    change (inject_Z (Z.of_nat (@List.length Q []))) with 0. lra.
  - assert (I : Qsum (y :: l) < inject_Z (Z.of_nat (List.length (y :: l))) * c)
      by (apply IH; discriminate).
    lra.
Qed.

Lemma Qsum_above (l : list Q) (c : Q) :
  l <> [] -> Forall (fun x => c < x) l ->
  inject_Z (Z.of_nat (List.length l)) * c < Qsum l.
Proof.
  intros Hne H. induction H as [| x l Hx Hl IH]; [contradiction |].
  change (Qsum (x :: l)) with (x + Qsum l).
  rewrite length_cons, Nat2Z.inj_succ, <- Z.add_1_r, inject_Z_plus.
  change (inject_Z 1) with 1.
  destruct l as [| y l].
  - change (Qsum []) with 0.
    change (inject_Z (Z.of_nat (@List.length Q []))) with 0. lra.
  - assert (I : inject_Z (Z.of_nat (List.length (y :: l))) * c < Qsum (y :: l))
      by (apply IH; discriminate).
    lra.
Qed.

Lemma split_last (l : list Q) (n : nat) :
  List.length l = S n -> l = firstn n l ++ [nth n l 0].
Proof.
  revert l. induction n as [| n IH]; intros [| x l] H; try discriminate H.
  - destruct l; [reflexivity | discriminate H].
  - cbn [firstn nth app]. f_equal. apply IH. now injection H.
Qed.

(** Ten closes after ten others, all in rising order: the last of them
    is above their mean, and they sum to more than the ten before. *)
Lemma rising_window (a b : list Q) :
  List.length a = 10%nat -> List.length b = 10%nat ->
  StronglySorted Qlt (a ++ b) ->
  Qsum b < 10 * nth 9 b 0 /\ Qsum a < Qsum b.
Proof.
  intros Ha Hb Hs.
  pose proof (sorted_app_r Qlt a b Hs) as Hsb.
  split.
  - rewrite (split_last b 9 Hb) in Hsb |- * at 1.
    rewrite Qsum_app. change (Qsum [nth 9 b 0]) with (nth 9 b 0 + 0).
    pose proof (sorted_last Qlt _ _ Hsb) as Hl.
    assert (L : List.length (firstn 9 b) = 9%nat)
      by (apply firstn_length_le; lia).
    assert (S9 : Qsum (firstn 9 b) <
                 inject_Z (Z.of_nat (List.length (firstn 9 b))) * nth 9 b 0).
    { apply Qsum_below; [| exact Hl].
      intros E. rewrite E in L. discriminate L. }
    rewrite L in S9. change (inject_Z (Z.of_nat 9)) with 9 in S9. lra.
  - destruct b as [| c b']; [discriminate Hb |].
    assert (A : Qsum a < inject_Z (Z.of_nat (List.length a)) * c).
    { apply Qsum_below; [intros E; rewrite E in Ha; discriminate Ha |].
      apply Forall_forall. intros x Hx.
      apply (sorted_app_cross Qlt a (c :: b') Hs x c Hx). now left. }
    apply StronglySorted_inv in Hsb. destruct Hsb as [_ Hc].
    assert (B : inject_Z (Z.of_nat (List.length b')) * c < Qsum b').
    { apply Qsum_above; [| exact Hc].
      intros E. rewrite E in Hb. discriminate Hb. }
    assert (L : List.length b' = 9%nat) by (cbn in Hb; lia).
    rewrite Ha in A. rewrite L in B.
    change (inject_Z (Z.of_nat 10)) with 10 in A.
    change (inject_Z (Z.of_nat 9)) with 9 in B.
    change (Qsum (c :: b')) with (c + Qsum b'). lra.
Qed.

Lemma Qsum_opp (l : list Q) : Qsum (map Qopp l) == - Qsum l.
Proof.
  unfold Qsum. induction l as [| x l IH]; cbn [map fold_right]; [reflexivity |].
  rewrite IH. ring.
Qed.

Lemma sorted_opp (l : list Q) :
  StronglySorted (fun x y => y < x) l -> StronglySorted Qlt (map Qopp l).
Proof.
  induction 1 as [| x l Hs IH Hx]; cbn [map]; constructor; [exact IH |].
  apply Forall_forall. intros y Hy. apply in_map_iff in Hy.
  destruct Hy as (z & <- & Hz). rewrite Forall_forall in Hx.
  specialize (Hx z Hz). lra.
Qed.

Lemma falling_window (a b : list Q) :
  List.length a = 10%nat -> List.length b = 10%nat ->
  StronglySorted (fun x y => y < x) (a ++ b) ->
  10 * nth 9 b 0 < Qsum b /\ Qsum b < Qsum a.
Proof.
  intros Ha Hb Hs. apply sorted_opp in Hs. rewrite map_app in Hs.
  destruct (rising_window (map Qopp a) (map Qopp b)) as [H1 H2];
    rewrite ?length_map; try assumption.
  pose proof (Qsum_opp a) as Ea. pose proof (Qsum_opp b) as Eb.
  assert (E : nth 9 (map Qopp b) 0 = - nth 9 b 0)
    by (exact (map_nth Qopp b 0 9)).
  rewrite E in H1. lra.
Qed.

(** X20: with 20 bars or more, closes that rise strictly over the last 20
    bars score 85 and closes that fall strictly over them score 15. *)
Theorem steady_series_trend (data : DataFrame) :
  (20 <= len data)%nat -> has_column data "Close" = true ->
  (StronglySorted Qlt (tail 20 (closes data)) ->
   _calculate_trend data = Ok (Fin 85)) /\
  (StronglySorted (fun x y => y < x) (tail 20 (closes data)) ->
   _calculate_trend data = Ok (Fin 15)).
Proof.
  intros Hn Hc.
  pose proof (trend_decades data Hn Hc) as [H85 H15]. cbv zeta in H85, H15.
  assert (Hlen : (10 <= 20 <= List.length (closes data))%nat)
    by (rewrite closes_length; lia).
  pose proof (tail_split 10 20 (closes data) Hlen) as Hw.
  set (a := earlier 10 20 (closes data)) in *.
  set (b := tail 10 (closes data)) in *.
  assert (La : List.length a = 10%nat).
  { unfold a, earlier. apply firstn_length_le. rewrite tail_length. lia. }
  assert (Lb : List.length b = 10%nat)
    by (unfold b; rewrite tail_length; lia).
  assert (Hlast : nth 9 b 0 = nth (len data - 1) (closes data) 0).
  { unfold b, tail. rewrite nth_skipn, closes_length. f_equal. lia. }
  rewrite Hw. rewrite <- Hlast in H85, H15.
  split; intros Hs.
  - destruct (rising_window a b La Lb Hs) as [H1 H2].
    apply H85. split.
    + apply Qlt_shift_div_r; lra.
    + apply Qlt_shift_div_r; [lra |].
      assert (E : Qsum b / 10 * 10 == Qsum b) by field. lra.
  - destruct (falling_window a b La Lb Hs) as [H1 H2].
    apply H15. split.
    + apply Qlt_shift_div_l; lra.
    + apply Qlt_shift_div_l; [lra |].
      assert (E : Qsum b / 10 * 10 == Qsum b) by field. lra.
Qed.

Lemma steady_series_trend_witness :
  _calculate_trend surging = Ok (Fin 85).
Proof.
  assert (Hn : (20 <= len surging)%nat) by (unfold len; simpl; lia).
  apply (proj1 (steady_series_trend surging Hn eq_refl)).
  vm_compute.
  repeat (constructor; [| repeat (constructor; [reflexivity |]); constructor]).
  constructor.
Defined.

(** * The scores, the plan and the quote in binary64 arithmetic *)

Section Binary64Properties.

Import Binary64.

(** ** Comparisons and quotients of doubles *)

Lemma compare_cont_antisym (m n : positive) :
  Pos.compare_cont Eq n m = CompOpp (Pos.compare_cont Eq m n).
Proof. exact (Pos.compare_antisym m n). Qed.

Lemma ltb_asym (x y : f64) : ltb x y = true -> ltb y x = false.
Proof.
  unfold ltb, SFltb.
  destruct x as [sx | sx | | sx mx ex], y as [sy | sy | | sy my ey];
    cbn [SFcompare]; try discriminate; try reflexivity;
    try (destruct sx; try destruct sy; try discriminate; reflexivity);
    try (destruct sy; try discriminate; reflexivity).
  rewrite (Z.compare_antisym ex ey), (compare_cont_antisym mx my).
  destruct sx, sy; try discriminate; try reflexivity;
    destruct (ex ?= ey)%Z; cbn [CompOpp]; try discriminate; try reflexivity;
    destruct (Pos.compare_cont Eq mx my); cbn [CompOpp];
    try discriminate; reflexivity.
Qed.

Lemma gtb_asym (x y : f64) : gtb x y = true -> ltb x y = false.
Proof. unfold gtb. apply ltb_asym. Qed.

(** A double above a finite positive double is above every double with
    the same sign and a smaller exponent. *)
Lemma above_smaller_exponent (m n : positive) (e f : Z) (r : f64) :
  (f < e)%Z ->
  gtb r (S754_finite false m e) = true ->
  gtb r (S754_finite false n f) = true.
Proof.
  intros Hfe. unfold gtb, SFltb.
  destruct r as [s | s | | s k g]; cbn [SFcompare]; try discriminate.
  - destruct s; [discriminate | reflexivity].
  - destruct s; [discriminate |].
    destruct (Z.compare_spec e g) as [E | L | G]; try discriminate.
    + subst g. intros _. now rewrite (proj2 (Z.compare_lt_iff f e) Hfe).
    + intros _.
      now rewrite (proj2 (Z.compare_lt_iff f g) (Z.lt_trans _ _ _ Hfe L)).
Qed.

Lemma above_2_above_1_5 (r : f64) :
  gtb r (of_Z 2) = true -> gtb r (of_Q 1.5) = true.
Proof.
  change (of_Z 2) with (S754_finite false 4503599627370496 (-51)).
  change (of_Q 1.5) with (S754_finite false 6755399441055744 (-52)).
  apply above_smaller_exponent. reflexivity.
Qed.

Lemma above_1_5_above_1 (r : f64) :
  gtb r (of_Q 1.5) = true -> gtb r (of_Z 1) = true.
Proof.
  change (of_Q 1.5) with (S754_finite false 6755399441055744 (-52)).
  change (of_Z 1) with (S754_finite false 4503599627370496 (-52)).
  unfold gtb, SFltb.
  destruct r as [s | s | | s k g]; cbn [SFcompare]; try discriminate.
  - destruct s; [discriminate | reflexivity].
  - destruct s; [discriminate |].
    destruct (Z.compare_spec (-52) g) as [E | L | G]; try discriminate;
      try reflexivity.
    rewrite !Pos.compare_cont_spec. cbn [Pos.switch_Eq].
    destruct (Pos.compare_spec 6755399441055744 k) as [E' | L' | G'];
      try discriminate.
    intros _.
    now rewrite (proj2 (Pos.compare_lt_iff 4503599627370496 k)) by lia.
Qed.

(** A finite double other than zero divided by itself is exactly 1. *)
Lemma div_self (s : bool) (m : positive) (e : Z) :
  div (S754_finite s m e) (S754_finite s m e) = of_Z 1.
Proof.
  unfold div, SFdiv, SFdiv_core_binary.
  rewrite !Z.sub_diag, xorb_nilpotent.
  change (Z.min (fexp prec emax 0) 0) with (-53)%Z.
  change (0 - -53)%Z with 53%Z. cbv iota beta.
  assert (E : Z.div_eucl (Z.shiftl (Z.pos m) 53) (Z.pos m)
              = ((2 ^ 53)%Z, 0%Z)).
  { rewrite Z.shiftl_mul_pow2 by lia.
    pose proof (Z.div_mul (2 ^ 53) (Z.pos m) ltac:(lia)) as Hq.
    pose proof (Z.mod_mul (2 ^ 53) (Z.pos m) ltac:(lia)) as Hr.
    rewrite Z.mul_comm in Hq, Hr. unfold Z.div in Hq. unfold Z.modulo in Hr.
    destruct (Z.div_eucl (Z.pos m * 2 ^ 53) (Z.pos m)) as [q r].
    cbn [fst snd] in Hq, Hr. now subst. }
  rewrite E.
  assert (L : new_location (Z.pos m) 0 = loc_Exact).
  { unfold new_location, new_location_even, new_location_odd.
    destruct (Z.even (Z.pos m)); reflexivity. }
  rewrite L. reflexivity.
Qed.

(** Whatever a double is, its quotient by itself is not above 1. *)
Lemma self_ratio_not_above_1 (x : f64) : gtb (div x x) (of_Z 1) = false.
Proof.
  destruct x as [s | s | | s m e]; try reflexivity.
  rewrite div_self. reflexivity.
Qed.

(** ** Reading a frame *)

Lemma volume_column_ok (data : DataFrame) :
  has_column data "Volume" = true -> Volume_column data = Ok (volumes data).
Proof. intros H. unfold Volume_column. now rewrite H. Qed.

Lemma close_column_ok (data : DataFrame) :
  has_column data "Close" = true -> Close_column data = Ok (closes data).
Proof. intros H. unfold Close_column. now rewrite H. Qed.

Lemma closes_len (data : DataFrame) : List.length (closes data) = len data.
Proof. unfold closes, len. apply length_map. Qed.

Lemma volumes_len (data : DataFrame) : List.length (volumes data) = len data.
Proof. unfold volumes, len. apply length_map. Qed.

Lemma last_cell {A : Type} (s : list A) :
  (1 <= List.length s)%nat ->
  exists v, nth_error s (List.length s - 1) = Some v /\ iloc_neg s 1 = Ok v.
Proof.
  intros H. unfold iloc_neg.
  destruct (Nat.leb_spec 1 (List.length s)); [| lia].
  destruct (nth_error s (List.length s - 1)) as [v |] eqn:E.
  - exists v. auto.
  - apply nth_error_None in E. lia.
Qed.

(** ** Volume *)

Lemma volume_cascade (Series_mean : list number -> f64) (data : DataFrame) :
  (10 <= len data)%nat -> has_column data "Volume" = true ->
  let recent := Series_mean (tail 5 (volumes data)) in
  let longer :=
    if (20 <=? len data)%nat then Series_mean (tail 20 (volumes data))
    else recent in
  let ratio := div recent longer in
  _calculate_volume Series_mean data =
  if eqb longer (of_Z 0) then Ok (of_Z 50)
  else if gtb ratio (of_Z 2) then Ok (of_Z 90)
  else if gtb ratio (of_Q 1.5) then Ok (of_Z 75)
  else if gtb ratio (of_Z 1) then Ok (of_Z 60)
  else Ok (of_Z 40).
Proof.
  intros Hn Hv. cbv zeta. unfold _calculate_volume.
  destruct (Nat.ltb_spec (len data) 10); [lia |].
  rewrite Hv, (volume_column_ok _ Hv). reflexivity.
Qed.

(** C5: fewer than 10 bars or no Volume column give 50.  Otherwise, with
    the ratio of the mean volume of the last 5 bars to the mean volume of
    the last 20 (to the 5-bar mean itself under 20 bars), all taken in
    float64: a longer mean equal to 0 gives 50; else the score is 90 when
    the ratio is above 2, 75 when it is above 1.5, 60 when it is above 1
    and 40 otherwise.  Under 20 bars the score is 40, the ratio being
    exactly 1 whenever the mean is finite. *)
Theorem volume_score_thresholds (Series_mean : list number -> f64)
    (data : DataFrame) :
  ((len data < 10)%nat \/ has_column data "Volume" = false ->
   _calculate_volume Series_mean data = Ok (of_Z 50)) /\
  ((10 <= len data)%nat -> has_column data "Volume" = true ->
   let recent := Series_mean (tail 5 (volumes data)) in
   let longer :=
     if (20 <=? len data)%nat then Series_mean (tail 20 (volumes data))
     else recent in
   let ratio := div recent longer in
   (eqb longer (of_Z 0) = true ->
    _calculate_volume Series_mean data = Ok (of_Z 50)) /\
   (eqb longer (of_Z 0) = false ->
    (gtb ratio (of_Z 2) = true ->
     _calculate_volume Series_mean data = Ok (of_Z 90)) /\
    (gtb ratio (of_Q 1.5) = true -> gtb ratio (of_Z 2) = false ->
     _calculate_volume Series_mean data = Ok (of_Z 75)) /\
    (gtb ratio (of_Z 1) = true -> gtb ratio (of_Q 1.5) = false ->
     _calculate_volume Series_mean data = Ok (of_Z 60)) /\
    (gtb ratio (of_Z 1) = false ->
     _calculate_volume Series_mean data = Ok (of_Z 40)) /\
    ((len data < 20)%nat ->
     (is_finite recent = true -> ratio = of_Z 1) /\
     _calculate_volume Series_mean data = Ok (of_Z 40)))).
Proof.
  split.
  - intros H. unfold _calculate_volume.
    destruct (Nat.ltb_spec (len data) 10); [reflexivity |].
    destruct H as [H | H]; [lia |]. rewrite H. reflexivity.
  - intros Hn Hv recent longer ratio.
    rewrite (volume_cascade Series_mean data Hn Hv).
    fold recent longer ratio.
    split; [intros H0; now rewrite H0 |].
    intros H0. rewrite H0.
    split; [| split; [| split; [| split]]].
    + intros H2. now rewrite H2.
    + intros H15 H2. now rewrite H2, H15.
    + intros H1 H15.
      destruct (gtb ratio (of_Z 2)) eqn:H2.
      * apply above_2_above_1_5 in H2. congruence.
      * now rewrite H15, H1.
    + intros H1.
      destruct (gtb ratio (of_Q 1.5)) eqn:H15.
      * apply above_1_5_above_1 in H15. congruence.
      * destruct (gtb ratio (of_Z 2)) eqn:H2.
        -- apply above_2_above_1_5 in H2. congruence.
        -- now rewrite H1.
    + intros Hs.
      assert (El : longer = recent).
      { unfold longer. destruct (Nat.leb_spec 20 (len data)); [lia |].
        reflexivity. }
      assert (N1 : gtb ratio (of_Z 1) = false).
      { unfold ratio. rewrite El. apply self_ratio_not_above_1. }
      split.
      * intros Hf. unfold ratio. rewrite El. rewrite El in H0.
        destruct recent as [s | s | | s m e]; try discriminate.
        apply div_self.
      * destruct (gtb ratio (of_Q 1.5)) eqn:H15.
        -- apply above_1_5_above_1 in H15. congruence.
        -- destruct (gtb ratio (of_Z 2)) eqn:H2.
           ++ apply above_2_above_1_5 in H2. congruence.
           ++ now rewrite N1.
Qed.

Lemma volume_score_thresholds_witness :
  _calculate_volume mean_of_cells (mkFrame ohlcv []) = Ok (of_Z 50) /\
  _calculate_volume mean_of_cells flat = Ok (of_Z 75).
Proof.
  split.
  - apply (proj1 (volume_score_thresholds mean_of_cells (mkFrame ohlcv []))).
    left. unfold len. simpl. lia.
  - assert (Hn : (10 <= len flat)%nat) by (unfold len; simpl; lia).
    assert (Hv : has_column flat "Volume" = true) by reflexivity.
    destruct (proj2 (volume_score_thresholds mean_of_cells flat) Hn Hv)
      as [_ H].
    apply H; vm_compute; reflexivity.
Defined.

(** The two mean volumes of [flat] are the doubles nearest to 4.2 and
    2.8; their float64 quotient is above the double 1.5. *)
Lemma ratio_of_nearest_doubles :
  mean_of_cells (tail 5 (volumes flat)) = of_Q 4.2 /\
  mean_of_cells (tail 20 (volumes flat)) = of_Q 2.8 /\
  gtb (div (of_Q 4.2) (of_Q 2.8)) (of_Q 1.5) = true.
Proof. vm_compute. auto. Qed.

(** ** Trend *)

(** C6: fewer than 20 bars give 50; otherwise, with MA10 and MA20 the
    means of the last 10 and 20 closes and all comparisons in float64,
    the score is 85 when latest close > MA10 > MA20, 15 when latest close
    < MA10 < MA20, and 50 in every other case. *)
Theorem trend_score_orderings (np_mean : list f64 -> f64)
    (data : DataFrame) :
  ((len data < 20)%nat -> _calculate_trend np_mean data = Ok (of_Z 50)) /\
  ((20 <= len data)%nat -> has_column data "Close" = true ->
   exists latest,
     nth_error (closes data) (len data - 1) = Some latest /\
     let ma10 := np_mean (tail 10 (closes data)) in
     let ma20 := np_mean (tail 20 (closes data)) in
     (gtb latest ma10 = true /\ gtb ma10 ma20 = true ->
      _calculate_trend np_mean data = Ok (of_Z 85)) /\
     (ltb latest ma10 = true /\ ltb ma10 ma20 = true ->
      _calculate_trend np_mean data = Ok (of_Z 15)) /\
     (~ (gtb latest ma10 = true /\ gtb ma10 ma20 = true) ->
      ~ (ltb latest ma10 = true /\ ltb ma10 ma20 = true) ->
      _calculate_trend np_mean data = Ok (of_Z 50))).
Proof.
  split.
  - intros H. unfold _calculate_trend.
    destruct (Nat.ltb_spec (len data) 20); [reflexivity | lia].
  - intros Hn Hc.
    destruct (last_cell (closes data)) as (latest & Hl & Hi);
      [rewrite closes_len; lia |].
    rewrite closes_len in Hl.
    exists latest. split; [exact Hl |].
    intros ma10 ma20. unfold _calculate_trend.
    destruct (Nat.ltb_spec (len data) 20); [lia |].
    rewrite (close_column_ok _ Hc). cbn [bind]. rewrite Hi. cbn [bind].
    fold ma10 ma20.
    split; [| split].
    + intros [H1 H2]. now rewrite H1, H2.
    + intros [H1 H2].
      assert (E : gtb latest ma10 = false) by (now apply ltb_asym).
      now rewrite E, H1, H2.
    + intros N1 N2.
      destruct (gtb latest ma10) eqn:E1, (gtb ma10 ma20) eqn:E2;
        destruct (ltb latest ma10) eqn:E3, (ltb ma10 ma20) eqn:E4;
        cbn [andb]; try reflexivity; tauto.
Qed.

Lemma trend_score_orderings_witness :
  _calculate_trend mean_left (mkFrame ohlcv []) = Ok (of_Z 50) /\
  _calculate_trend mean_left flat = Ok (of_Z 85).
Proof.
  split.
  - apply (proj1 (trend_score_orderings mean_left (mkFrame ohlcv []))).
    unfold len. simpl. lia.
  - assert (Hn : (20 <= len flat)%nat) by (unfold len; simpl; lia).
    assert (Hc : has_column flat "Close" = true) by reflexivity.
    destruct (proj2 (trend_score_orderings mean_left flat) Hn Hc)
      as (latest & Hl & H & _).
    apply H. vm_compute in Hl. injection Hl as <-.
    vm_compute. split; reflexivity.
Defined.

(** Twenty equal closes of 1.91, added from the left, have a 10-bar mean
    one unit in the last place below 1.91 and a 20-bar mean one further
    below. *)
Lemma means_of_equal_closes :
  mean_left (tail 10 (closes flat)) = S754_finite false 8601875288277646 (-52) /\
  mean_left (tail 20 (closes flat)) = S754_finite false 8601875288277645 (-52) /\
  of_Q 1.91 = S754_finite false 8601875288277647 (-52).
Proof. vm_compute. auto. Qed.

(** ** Trade plan *)

Lemma plan_levels (a : Analysis) (p : f64) (t : string) :
  price a = Some p -> trend a = Some t ->
  let bull := String.eqb t "BULLISH" in
  let stop := mul p (of_Q (if bull then 0.93 else 1.07)) in
  let tgt := mul p (of_Q (if bull then 1.21 else 0.79)) in
  let risk := abs (sub p stop) in
  let reward := abs (sub tgt p) in
  let s := score a in
  _generate_trade_plan a =
  Ok (mkPlan (if bull then "LONG" else "SHORT")
        (round2 p) (round2 stop) (round2 tgt)
        (round2 (if gtb risk (of_Z 0) then div reward risk else of_Z 0))
        "3-10 days"
        (if geb s (of_Z 85) then "10-15%"
         else if geb s (of_Z 75) then "7-10%" else "5-7%")
        (if geb s (of_Z 85) then "VERY HIGH"
         else if geb s (of_Z 75) then "HIGH" else "MODERATE")).
Proof.
  intros Hp Ht. unfold _generate_trade_plan. rewrite Hp, Ht. cbn [lookup bind].
  destruct (String.eqb t "BULLISH");
    destruct (geb (score a) (of_Z 85)); destruct (geb (score a) (of_Z 75));
    reflexivity.
Qed.

(** C8 (as amended): direction is LONG exactly for the BULLISH label and
    SHORT otherwise; the plan's entry is the price rounded to 2 decimals;
    its stop and target are the float64 products price * 0.93 and price *
    1.21 (LONG), price * 1.07 and price * 0.79 (SHORT), each rounded to 2
    decimals; its risk-reward is |target - entry| / |entry - stop| taken
    in float64 on the unrounded levels and then rounded to 2 decimals, or
    0 when the risk is not above 0.  At price 100: 100, 93, 121, 3
    (BULLISH), 100, 107, 79, 3 (BEARISH). *)
Theorem trade_plan_levels (a : Analysis) (p : f64) (t : string) :
  price a = Some p -> trend a = Some t ->
  exists plan, _generate_trade_plan a = Ok plan /\
    (t = "BULLISH" ->
     direction plan = "LONG" /\
     stop_loss plan = round2 (mul p (of_Q 0.93)) /\
     target plan = round2 (mul p (of_Q 1.21))) /\
    (t <> "BULLISH" ->
     direction plan = "SHORT" /\
     stop_loss plan = round2 (mul p (of_Q 1.07)) /\
     target plan = round2 (mul p (of_Q 0.79))) /\
    entry plan = round2 p /\
    (let bull := String.eqb t "BULLISH" in
     let stop := mul p (of_Q (if bull then 0.93 else 1.07)) in
     let tgt := mul p (of_Q (if bull then 1.21 else 0.79)) in
     let risk := abs (sub p stop) in
     let reward := abs (sub tgt p) in
     (gtb risk (of_Z 0) = true ->
      risk_reward plan = round2 (div reward risk)) /\
     (gtb risk (of_Z 0) = false -> risk_reward plan = of_Z 0)) /\
    (p = of_Z 100 -> t = "BULLISH" ->
     entry plan = of_Z 100 /\ stop_loss plan = of_Z 93 /\
     target plan = of_Z 121 /\ risk_reward plan = of_Z 3) /\
    (p = of_Z 100 -> t = "BEARISH" ->
     entry plan = of_Z 100 /\ stop_loss plan = of_Z 107 /\
     target plan = of_Z 79 /\ risk_reward plan = of_Z 3).
Proof.
  intros Hp Ht. rewrite (plan_levels a p t Hp Ht).
  eexists. split; [reflexivity |].
  cbn [direction entry stop_loss target risk_reward].
  split; [| split; [| split; [| split; [| split]]]].
  - intros ->. cbn. auto.
  - intros Hne.
    destruct (String.eqb_spec t "BULLISH"); [contradiction | auto].
  - reflexivity.
  - cbv zeta. split; intros H; rewrite H; reflexivity.
  - intros -> ->. vm_compute. auto.
  - intros -> ->. vm_compute. auto.
Qed.

Lemma trade_plan_levels_witness :
  exists plan,
    _generate_trade_plan (analysis_of 100 "BULLISH" 80) = Ok plan /\
    entry plan = of_Z 100 /\ stop_loss plan = of_Z 93 /\
    target plan = of_Z 121 /\ risk_reward plan = of_Z 3.
Proof.
  destruct (trade_plan_levels (analysis_of 100 "BULLISH" 80) (of_Q 100)
              "BULLISH" eq_refl eq_refl) as (plan & H & _ & _ & _ & _ & B & _).
  exists plan. split; [exact H | apply B; reflexivity].
Defined.

(** C8 (as stated) fails: at price 123.456 with trend BULLISH the plan's
    entry is 123.46, not the current price, and its stop is 114.81, not
    the product 123.456 * 0.93. *)
Lemma trade_plan_entry_is_rounded :
  exists plan,
    _generate_trade_plan (analysis_of 123.456 "BULLISH" 80) = Ok plan /\
    entry plan = of_Q 123.46 /\
    eqb (entry plan) (of_Q 123.456) = false /\
    stop_loss plan = of_Q 114.81 /\
    eqb (stop_loss plan) (mul (of_Q 123.456) (of_Q 0.93)) = false.
Proof.
  eexists. split; [reflexivity |].
  vm_compute. auto.
Qed.

(** The stop is the rounded float64 product: at 2.5 the product 2.5 *
    0.93 lies above 2.325 and the stop is 2.33; at 3.5 with a falling
    trend the stop is 3.75 and the target 2.77. *)
Lemma stop_rounds_the_float_product :
  (exists plan,
     _generate_trade_plan (analysis_of 2.5 "BULLISH" 80) = Ok plan /\
     stop_loss plan = of_Q 2.33) /\
  (exists plan,
     _generate_trade_plan (analysis_of 3.5 "BEARISH" 80) = Ok plan /\
     stop_loss plan = of_Q 3.75 /\ target plan = of_Q 2.77).
Proof.
  split; (eexists; split; [reflexivity |]); vm_compute; auto.
Qed.

(** ** Live quotes *)

Lemma int_of_number (v : number) :
  is_number v = true -> exists n, int v = Ok n.
Proof.
  destruct v as [n | x]; [intros _; now exists n |].
  destruct x; try discriminate; intros _; eexists; reflexivity.
Qed.

Lemma int_of_no_number (v : number) :
  is_number v = false -> exists e, int v = Raise e.
Proof.
  destruct v as [n | x]; [discriminate |].
  destruct x; try discriminate; intros _; eexists; reflexivity.
Qed.

Lemma empty_false_len (d : DataFrame) : empty d = false -> (1 <= len d)%nat.
Proof.
  unfold empty, len. destruct (columns d); [discriminate |].
  destruct (rows d); [discriminate | simpl; lia].
Qed.

(** X12: a quote is always returned, stamped with the clock reading.
    When the provider returned a frame with data that has the Close and
    Volume columns and whose last volume is a number, the quote is
    tagged "yfinance" and carries the last close and the last volume
    truncated to an integer.  In every other case (the provider raised,
    the frame is empty, a column is missing, the last volume is [nan] or
    infinite) it is the fallback quote: price 100, volume 1000000, tagged
    "fallback". *)
Theorem quote_or_fallback (history : string -> result DataFrame) (now : Z)
    (tk : string) :
  let q := get_real_time_quote history now tk in
  let usable d :=
    empty d = false /\
    has_column d "Close" = true /\ has_column d "Volume" = true /\
    exists v, nth_error (volumes d) (len d - 1) = Some v /\
              is_number v = true in
  quote_timestamp q = now /\
  (forall d, history tk = Ok d -> usable d ->
   exists c v n,
     nth_error (closes d) (len d - 1) = Some c /\
     nth_error (volumes d) (len d - 1) = Some v /\
     int v = Ok n /\
     q = mkQuote c n now "yfinance") /\
  (~ (exists d, history tk = Ok d /\ usable d) ->
   q = mkQuote (of_Q 100.00) 1000000 now "fallback").
Proof.
  cbv zeta. unfold get_real_time_quote.
  destruct (history tk) as [d | e] eqn:Hh; cbn [bind].
  - destruct (empty d) eqn:He; cbn [negb].
    + split; [reflexivity |]. split; [| reflexivity].
      intros d' Hd (He' & _). injection Hd as <-. congruence.
    + pose proof (empty_false_len d He) as Hn.
      destruct (last_cell (closes d)) as (c & Hc1 & Hc2);
        [rewrite closes_len; lia |].
      destruct (last_cell (volumes d)) as (v & Hv1 & Hv2);
        [rewrite volumes_len; lia |].
      rewrite closes_len in Hc1. rewrite volumes_len in Hv1.
      unfold Close_column, Volume_column.
      destruct (has_column d "Close") eqn:Hc; cbn [bind].
      * rewrite Hc2. cbn [bind].
        destruct (has_column d "Volume") eqn:Hv; cbn [bind].
        -- rewrite Hv2. cbn [bind].
           destruct (is_number v) eqn:Hnum.
           ++ destruct (int_of_number v Hnum) as (n & Hi). rewrite Hi.
              cbn [bind]. split; [reflexivity |]. split.
              ** intros d' Hd _. injection Hd as <-.
                 exists c, v, n. auto.
              ** intros H. exfalso. apply H. exists d.
                 split; [reflexivity |]. repeat split; try assumption.
                 exists v. auto.
           ++ destruct (int_of_no_number v Hnum) as (e & Hi). rewrite Hi.
              cbn [bind]. split; [reflexivity |]. split; [| reflexivity].
              intros d' Hd (_ & _ & _ & v' & Hv' & Hn'). injection Hd as <-.
              congruence.
        -- split; [reflexivity |]. split; [| reflexivity].
           intros d' Hd (_ & _ & Hv' & _). injection Hd as <-. congruence.
      * split; [reflexivity |]. split; [| reflexivity].
        intros d' Hd (_ & Hc' & _). injection Hd as <-. congruence.
  - split; [reflexivity |]. split; [| reflexivity].
    intros d' Hd. discriminate.
Qed.

Lemma quote_or_fallback_witness :
  quote_source (get_real_time_quote (fun _ => Ok flat) 7 "NVDA") = "yfinance" /\
  get_real_time_quote (fun _ => Ok gap) 7 "NVDA" =
  mkQuote (of_Q 100.00) 1000000 7 "fallback".
Proof.
  split.
  - destruct (quote_or_fallback (fun _ => Ok flat) 7 "NVDA") as (_ & H & _).
    destruct (H flat eq_refl) as (c & v & n & _ & _ & _ & Hq).
    + repeat split. exists (Int 5). split; reflexivity.
    + cbv zeta in Hq. rewrite Hq. reflexivity.
  - destruct (quote_or_fallback (fun _ => Ok gap) 7 "NVDA") as (_ & _ & H).
    apply H. intros (d & Hd & _ & _ & _ & v & Hv & Hn).
    injection Hd as <-. vm_compute in Hv. injection Hv as <-. discriminate.
Defined.

End Binary64Properties.
